(** * The validator [Get] client of v4-client-js: typed queries over an
      unverified gRPC-style transport.

    Every public method of the [Get] class builds a protobuf request,
    hands it with its fixed path to
    [stargateQueryClient.queryUnverified], and decodes the answer
    ([latestBlock] and [latestBlockHeight] ask the Tendermint client
    instead).  The development has three layers:

    - [Wire]: the protobuf wire format (varints, tagged fields,
      length-delimited payloads) and the codecs of the messages the
      client sends;
    - the imported names the class relies on (message codecs,
      [PAGE_REQUEST], [accountFromAny]) gathered in one record
      [Imports], so that the methods are verified for every
      implementation of them;
    - the class itself, as state-passing code over the gateway object,
      the remote node and the log of remote calls. *)

From Stdlib Require Import Ascii String List ZArith NArith Lia Bool.
From Stdlib Require Import Strings.Byte.
Import ListNotations.

Local Open Scope string_scope.
Local Open Scope list_scope.
Local Open Scope N_scope.

(** [Uint8Array] *)
Definition bytes := list byte.

(** ** Option monad of the readers *)

Definition obind {A B} (o : option A) (k : A -> option B) : option B :=
  match o with
  | Some a => k a
  | None => None
  end.

Notation "x <-? o ;; k" := (obind o (fun x => k))
  (at level 61, o at next level, right associativity).
Notation "' pat <-? o ;; k" := (obind o (fun x => match x with pat => k end))
  (at level 61, pat pattern, o at next level, right associativity).

Module Wire.

(** *** Bytes *)

(** The byte of a number below 256. *)
Definition byte_of_N (n : N) : byte :=
  match Byte.of_N n with
  | Some b => b
  | None => x00
  end.

(** *** Base-128 varints *)

(** Modelled from the spec: the writer of "protobuf" payloads is library
    code outside the gateway's file.  A varint holds seven payload bits
    per byte, least significant group first, with the top bit set on
    every byte but the last. *)
Fixpoint write_varint (fuel : nat) (n : N) : bytes :=
  match fuel with
  | O => [byte_of_N (n mod 128)]
  | S fuel' =>
      if (n <? 128)%N then [byte_of_N n]
      else byte_of_N (n mod 128 + 128) :: write_varint fuel' (n / 128)
  end.

(** Modelled from the spec: the varint of [n]; the number of bits of [n]
    is more fuel than its groups of seven need. *)
Definition varint (n : N) : bytes := write_varint (N.to_nat (N.size n)) n.

(** Modelled from the spec: the reader of varints, the inverse of the
    writer. *)
Fixpoint read_varint (bs : bytes) : option (N * bytes) :=
  match bs with
  | [] => None
  | b :: rest =>
      let v := Byte.to_N b in
      if (v <? 128)%N then Some (v, rest)
      else '(hi, rest') <-? read_varint rest ;;
           Some ((v - 128) + 128 * hi, rest')%N
  end.

(** *** Tagged fields *)

(** Modelled from the spec: the four kinds of field value of the
    protobuf wire format (wire types 0, 1, 2 and 5). *)
Inductive WireValue :=
| VARINT (n : N)
| I64 (payload : bytes)
| LEN (payload : bytes)
| I32 (payload : bytes).

Definition RawField : Type := N * WireValue.

Definition wire_type (v : WireValue) : N :=
  match v with
  | VARINT _ => 0
  | I64 _ => 1
  | LEN _ => 2
  | I32 _ => 5
  end.

(** Modelled from the spec: a field is its tag, [(number << 3) | wire
    type], then its value; a length-delimited value is preceded by its
    length. *)
Definition write_field (f : RawField) : bytes :=
  let '(num, v) := f in
  varint (num * 8 + wire_type v) ++
  match v with
  | VARINT n => varint n
  | I64 p => p
  | LEN p => varint (N.of_nat (length p)) ++ p
  | I32 p => p
  end.

(** Modelled from the spec: a message is its fields, one after the
    other. *)
Definition write_fields (fs : list RawField) : bytes := flat_map write_field fs.

Definition take (n : nat) (bs : bytes) : option (bytes * bytes) :=
  if (length bs <? n)%nat then None else Some (firstn n bs, skipn n bs).

(** Modelled from the spec: the reader of one field; it fails on a
    truncated buffer and on the wire types 3, 4, 6 and 7. *)
Definition read_field (bs : bytes) : option (RawField * bytes) :=
  '(tag, r1) <-? read_varint bs ;;
  '(v, r2) <-?
     match tag mod 8 with
     | 0 => '(n, r) <-? read_varint r1 ;; Some (VARINT n, r)
     | 1 => '(p, r) <-? take 8 r1 ;; Some (I64 p, r)
     | 2 => '(len, r) <-? read_varint r1 ;;
            '(p, r') <-? take (N.to_nat len) r ;; Some (LEN p, r')
     | 5 => '(p, r) <-? take 4 r1 ;; Some (I32 p, r)
     | _ => None
     end ;;
  Some ((tag / 8, v), r2).

(** Modelled from the spec: the reader of a whole message.  Every field
    takes at least its tag byte, so the length of the buffer bounds the
    number of fields. *)
Fixpoint read_fields (fuel : nat) (bs : bytes) : option (list RawField) :=
  match bs with
  | [] => Some []
  | _ :: _ =>
      match fuel with
      | O => None
      | S fuel' =>
          '(f, rest) <-? read_field bs ;;
          fs <-? read_fields fuel' rest ;;
          Some (f :: fs)
      end
  end.

Definition parse (bs : bytes) : option (list RawField) :=
  read_fields (length bs) bs.

(** Fixed-width payloads have their width. *)
Definition wf_value (v : WireValue) : Prop :=
  match v with
  | I64 p => length p = 8%nat
  | I32 p => length p = 4%nat
  | _ => True
  end.

Definition wf_fields (fs : list RawField) : Prop :=
  Forall (fun f => wf_value (snd f)) fs.

(** *** Scalar fields *)

(** Modelled from the spec: the generated encoders leave out a field
    that holds its default value; a string goes out as its bytes. *)
Definition string_field (num : N) (s : string) : list RawField :=
  if String.eqb s "" then [] else [(num, LEN (list_byte_of_string s))].

Definition bytes_field (num : N) (b : bytes) : list RawField :=
  match b with
  | [] => []
  | _ :: _ => [(num, LEN b)]
  end.

(** Modelled from the spec: a [uint32] field; the writer keeps the low
    32 bits of the number it is given. *)
Definition uint32_field (num : N) (v : Z) : list RawField :=
  if (v =? 0)%Z then [] else [(num, VARINT (Z.to_N (v mod 2 ^ 32)))].

(** Modelled from the spec: a [uint64] field; a [Long] is an unsigned
    64-bit value by construction. *)
Definition uint64_field (num : N) (v : N) : list RawField :=
  if v =? 0 then [] else [(num, VARINT v)].

Definition bool_field (num : N) (b : bool) : list RawField :=
  if b then [(num, VARINT 1)] else [].

Definition message_field {M} (enc : M -> bytes) (num : N) (m : option M)
  : list RawField :=
  match m with
  | None => []
  | Some m => [(num, LEN (enc m))]
  end.

(** Modelled from the spec: the readers of one field value; a value of
    the wrong wire type is refused, and a [uint32] is read back as its
    low 32 bits. *)
Definition as_string (v : WireValue) : option string :=
  match v with
  | LEN p => Some (string_of_list_byte p)
  | _ => None
  end.

Definition as_bytes (v : WireValue) : option bytes :=
  match v with
  | LEN p => Some p
  | _ => None
  end.

Definition as_uint32 (v : WireValue) : option Z :=
  match v with
  | VARINT n => Some (Z.of_N (n mod 2 ^ 32))
  | _ => None
  end.

Definition as_uint64 (v : WireValue) : option N :=
  match v with
  | VARINT n => Some n
  | _ => None
  end.

Definition as_bool (v : WireValue) : option bool :=
  match v with
  | VARINT n => Some (negb (n =? 0))
  | _ => None
  end.

Definition as_message {M} (dec : bytes -> option M) (v : WireValue)
  : option M :=
  match v with
  | LEN p => dec p
  | _ => None
  end.

(** Modelled from the spec: the decoding loop of a generated decoder;
    start from the base message and let every field read update it, in
    order. *)
Fixpoint read_message {M} (step : M -> RawField -> option M) (base : M)
  (fs : list RawField) : option M :=
  match fs with
  | [] => Some base
  | f :: fs' => m <-? step base f ;; read_message step m fs'
  end.

End Wire.

Import Wire.

(** ** Messages

    The message types are imported ([cosmjs-types], [proto-includes]);
    their fields are the ones of the object literals the gateway passes
    to [encode] and of the projections it takes after [decode].  A field
    an object literal leaves out is [undefined]: [None]. *)

(** [cosmos.base.query.v1beta1.PageRequest] *)
Record PageRequest := {
  key : bytes;
  offset : N;
  limit : N;
  countTotal : bool;
  reverse : bool
}.

(** A request value, tagged with the message it is a value of.
    [QueryParamsRequest] is the one of [RewardsModule].  The requests for
    all balances and for all subaccounts have a pagination field, which
    the gateway leaves out; the numbers are JavaScript numbers. *)
Inductive Request :=
| QueryPerpetualFeeParamsRequest
| QueryUserFeeTierRequest (user : string)
| QueryUserStatsRequest (user : string)
| QueryAllBalancesRequest (address : string) (pagination : option PageRequest)
| QueryBalanceRequest (address denom : string)
| QueryAllSubaccountRequest (pagination : option PageRequest)
| QueryGetSubaccountRequest (owner : string) (number : Z)
| QueryParamsRequest
| QueryAllClobPairRequest (pagination : option PageRequest)
| QueryGetClobPairRequest (id : Z)
| QueryAllMarketPricesRequest (pagination : option PageRequest)
| QueryMarketPriceRequest (id : Z)
| QueryAllPerpetualsRequest (pagination : option PageRequest)
| QueryPerpetualRequest (id : Z)
| QueryAccountRequest (address : string)
| QueryEquityTierLimitConfigurationRequest
| QueryDelegatorDelegationsRequest (delegatorAddr : string)
    (pagination : option PageRequest)
| QueryDelegatorUnbondingDelegationsRequest (delegatorAddr : string)
    (pagination : option PageRequest)
| QueryDelayedCompleteBridgeMessagesRequest (address : string)
| QueryValidatorsRequest (status : string) (pagination : option PageRequest).

(** The codec objects named at the call sites, [Module.Message]. *)
Inductive RequestType :=
| FeeTierModule_QueryPerpetualFeeParamsRequest
| FeeTierModule_QueryUserFeeTierRequest
| StatsModule_QueryUserStatsRequest
| BankModule_QueryAllBalancesRequest
| BankModule_QueryBalanceRequest
| SubaccountsModule_QueryAllSubaccountRequest
| SubaccountsModule_QueryGetSubaccountRequest
| RewardsModule_QueryParamsRequest
| ClobModule_QueryAllClobPairRequest
| ClobModule_QueryGetClobPairRequest
| PricesModule_QueryAllMarketPricesRequest
| PricesModule_QueryMarketPriceRequest
| PerpetualsModule_QueryAllPerpetualsRequest
| PerpetualsModule_QueryPerpetualRequest
| AuthModule_QueryAccountRequest
| ClobModule_QueryEquityTierLimitConfigurationRequest
| StakingModule_QueryDelegatorDelegationsRequest
| StakingModule_QueryDelegatorUnbondingDelegationsRequest
| BridgeModule_QueryDelayedCompleteBridgeMessagesRequest
| StakingModule_QueryValidatorsRequest.

Inductive ResponseType :=
| FeeTierModule_QueryPerpetualFeeParamsResponse
| FeeTierModule_QueryUserFeeTierResponse
| StatsModule_QueryUserStatsResponse
| BankModule_QueryAllBalancesResponse
| BankModule_QueryBalanceResponse
| SubaccountsModule_QuerySubaccountAllResponse
| SubaccountsModule_QuerySubaccountResponse
| RewardsModule_QueryParamsResponse
| ClobModule_QueryClobPairAllResponse
| ClobModule_QueryClobPairResponse
| PricesModule_QueryAllMarketPricesResponse
| PricesModule_QueryMarketPriceResponse
| PerpetualsModule_QueryAllPerpetualsResponse
| PerpetualsModule_QueryPerpetualResponse
| AuthModule_QueryAccountResponse
| ClobModule_QueryEquityTierLimitConfigurationResponse
| StakingModule_QueryDelegatorDelegationsResponse
| StakingModule_QueryDelegatorUnbondingDelegationsResponse
| BridgeModule_QueryDelayedCompleteBridgeMessagesResponse
| StakingModule_QueryValidatorsResponse.

(** The message type a request value belongs to. *)
Definition messageType (r : Request) : RequestType :=
  match r with
  | QueryPerpetualFeeParamsRequest => FeeTierModule_QueryPerpetualFeeParamsRequest
  | QueryUserFeeTierRequest _ => FeeTierModule_QueryUserFeeTierRequest
  | QueryUserStatsRequest _ => StatsModule_QueryUserStatsRequest
  | QueryAllBalancesRequest _ _ => BankModule_QueryAllBalancesRequest
  | QueryBalanceRequest _ _ => BankModule_QueryBalanceRequest
  | QueryAllSubaccountRequest _ => SubaccountsModule_QueryAllSubaccountRequest
  | QueryGetSubaccountRequest _ _ => SubaccountsModule_QueryGetSubaccountRequest
  | QueryParamsRequest => RewardsModule_QueryParamsRequest
  | QueryAllClobPairRequest _ => ClobModule_QueryAllClobPairRequest
  | QueryGetClobPairRequest _ => ClobModule_QueryGetClobPairRequest
  | QueryAllMarketPricesRequest _ => PricesModule_QueryAllMarketPricesRequest
  | QueryMarketPriceRequest _ => PricesModule_QueryMarketPriceRequest
  | QueryAllPerpetualsRequest _ => PerpetualsModule_QueryAllPerpetualsRequest
  | QueryPerpetualRequest _ => PerpetualsModule_QueryPerpetualRequest
  | QueryAccountRequest _ => AuthModule_QueryAccountRequest
  | QueryEquityTierLimitConfigurationRequest =>
      ClobModule_QueryEquityTierLimitConfigurationRequest
  | QueryDelegatorDelegationsRequest _ _ =>
      StakingModule_QueryDelegatorDelegationsRequest
  | QueryDelegatorUnbondingDelegationsRequest _ _ =>
      StakingModule_QueryDelegatorUnbondingDelegationsRequest
  | QueryDelayedCompleteBridgeMessagesRequest _ =>
      BridgeModule_QueryDelayedCompleteBridgeMessagesRequest
  | QueryValidatorsRequest _ _ => StakingModule_QueryValidatorsRequest
  end.

(** The numbers a request carries are 32-bit unsigned fields of its
    message. *)
Definition uint32 (v : Z) : Prop := (0 <= v < 2 ^ 32)%Z.

Definition wellTyped (r : Request) : Prop :=
  match r with
  | QueryGetSubaccountRequest _ number => uint32 number
  | QueryGetClobPairRequest id
  | QueryMarketPriceRequest id
  | QueryPerpetualRequest id => uint32 id
  | _ => True
  end.

(** [Coin] of [@cosmjs/proto-signing] *)
Record Coin := { denom : string; amount : string }.

(** The stats record of [QueryUserStatsResponse]; both fields are [Long]s. *)
Record UserStats := { takerNotional : N; makerNotional : N }.

(** [google.protobuf.Any] *)
Record Any := { typeUrl : string; value : bytes }.

Record QueryUserStatsResponse := { stats : option UserStats }.
Record QueryAllBalancesResponse := { balances : list Coin }.
Record QueryBalanceResponse := { balance : option Coin }.
Record QueryAccountResponse := { account : option Any }.

(** The decoded value of each response type.  The four responses the
    gateway looks into are records; it hands the others to its caller
    untouched, and they stay opaque. *)
Definition Resp (Opaque : ResponseType -> Type) (t : ResponseType) : Type :=
  match t with
  | StatsModule_QueryUserStatsResponse => QueryUserStatsResponse
  | BankModule_QueryAllBalancesResponse => QueryAllBalancesResponse
  | BankModule_QueryBalanceResponse => QueryBalanceResponse
  | AuthModule_QueryAccountResponse => QueryAccountResponse
  | _ => Opaque t
  end.

(** [Block] and [Account] of [@cosmjs/stargate] *)
Record BlockHeader := {
  version_block : string;
  version_app : string;
  height : Z;
  chainId : string;
  time : string
}.

Record Block := { block_id : string; header : BlockHeader; txs : list bytes }.

Record Account := {
  account_address : string;
  pubkey : option Any;
  accountNumber : Z;
  sequence : Z
}.

(** ** Errors

    What a collaborator throws is a JavaScript [Error] of its own; the
    gateway itself only ever throws [UnexpectedClientError]. *)

Record JsError := { name : string; message : string }.

Inductive Exception :=
| UnexpectedClientError
| Raised (e : JsError).

Definition Result (A : Type) : Type := (Exception + A)%type.

Definition rethrow {A} (r : JsError + A) : Result A :=
  match r with
  | inl e => inl (Raised e)
  | inr a => inr a
  end.

(** ** The imported names *)

Record Imports := {
  (** [PAGE_REQUEST] of [../constants] *)
  PAGE_REQUEST : PageRequest;
  (** [Message.encode(request).finish()] *)
  encode : Request -> bytes;
  Opaque : ResponseType -> Type;
  (** [Message.decode(data)], which throws on malformed data *)
  decode : forall t : ResponseType, bytes -> JsError + Resp Opaque t;
  (** [accountFromAny] of [@cosmjs/stargate], which throws on an
      unsupported type url *)
  accountFromAny : Any -> JsError + Account
}.

(** ** The gateway *)

Section Gateway.

(** The state of everything behind the two clients: connections and the
    remote node. *)
Variable World : Type.

(** [tendermintClient.getBlock()] *)
Record TendermintClient := {
  getBlock : World -> (JsError + Block) * World
}.

(** [stargateQueryClient.queryUnverified(path, data)] *)
Record StargateQueryClient := {
  queryUnverified : string -> bytes -> World -> (JsError + bytes) * World
}.

(** The fields of the class. *)
Record Get := {
  tendermintClient : TendermintClient;
  stargateQueryClient : StargateQueryClient
}.

Definition constructor (tendermintClient : TendermintClient)
  (stargateQueryClient : StargateQueryClient) : Get :=
  {| tendermintClient := tendermintClient;
     stargateQueryClient := stargateQueryClient |}.

(** The calls that leave the process. *)
Inductive RemoteCall :=
| GetBlock
| QueryUnverified (requestUrl : string) (requestData : bytes).

Record Sys := {
  this : Get;
  node : World;
  calls : list RemoteCall
}.

(** An [async] method body, run to completion. *)
Definition Promise (A : Type) : Type := Sys -> Result A * Sys.

Definition resolve {A} (a : A) : Promise A := fun s => (inr a, s).

Definition throw {A} (e : Exception) : Promise A := fun s => (inl e, s).

Definition await {A B} (p : Promise A) (k : A -> Promise B) : Promise B :=
  fun s =>
    match p s with
    | (inl e, s') => (inl e, s')
    | (inr a, s') => k a s'
    end.

Notation "x <- p ;; k" := (await p (fun x => k))
  (at level 61, p at next level, right associativity).

(** A synchronous call into imported code, which may throw. *)
Definition call {A} (r : JsError + A) : Promise A := fun s => (rethrow r, s).

Definition tendermintClient_getBlock : Promise Block :=
  fun s =>
    let answer := getBlock (tendermintClient (this s)) (node s) in
    (rethrow (fst answer),
     {| this := this s; node := snd answer; calls := calls s ++ [GetBlock] |}).

Definition stargateQueryClient_queryUnverified (requestUrl : string)
  (requestData : bytes) : Promise bytes :=
  fun s =>
    let answer :=
      queryUnverified (stargateQueryClient (this s)) requestUrl requestData
        (node s) in
    (rethrow (fst answer),
     {| this := this s; node := snd answer;
        calls := calls s ++ [QueryUnverified requestUrl requestData] |}).

Variable ext : Imports.

Local Abbreviation Response := (Resp (Opaque ext)).

Definition sendQuery (requestUrl : string) (requestData : bytes)
  : Promise bytes :=
  stargateQueryClient_queryUnverified requestUrl requestData.

Definition latestBlock : Promise Block :=
  tendermintClient_getBlock.

Definition latestBlockHeight : Promise Z :=
  block <- latestBlock ;;
  resolve (height (header block)).

Definition getFeeTiers
  : Promise (Response FeeTierModule_QueryPerpetualFeeParamsResponse) :=
  let requestData := encode ext QueryPerpetualFeeParamsRequest in
  data <- sendQuery "/dydxprotocol.feetiers.Query/PerpetualFeeParams"
            requestData ;;
  call (decode ext FeeTierModule_QueryPerpetualFeeParamsResponse data).

Definition getUserFeeTier (address : string)
  : Promise (Response FeeTierModule_QueryUserFeeTierResponse) :=
  let requestData := encode ext (QueryUserFeeTierRequest address) in
  data <- sendQuery "/dydxprotocol.feetiers.Query/UserFeeTier" requestData ;;
  call (decode ext FeeTierModule_QueryUserFeeTierResponse data).

Definition getUserStats (address : string) : Promise (option UserStats) :=
  let requestData := encode ext (QueryUserStatsRequest address) in
  data <- sendQuery "/dydxprotocol.stats.Query/UserStats" requestData ;;
  response <- call (decode ext StatsModule_QueryUserStatsResponse data) ;;
  resolve (stats response).

Definition getAccountBalances (address : string) : Promise (list Coin) :=
  let requestData := encode ext (QueryAllBalancesRequest address None) in
  data <- sendQuery "/cosmos.bank.v1beta1.Query/AllBalances" requestData ;;
  response <- call (decode ext BankModule_QueryAllBalancesResponse data) ;;
  resolve (balances response).

Definition getAccountBalance (address denom : string)
  : Promise (option Coin) :=
  let requestData := encode ext (QueryBalanceRequest address denom) in
  data <- sendQuery "/cosmos.bank.v1beta1.Query/Balance" requestData ;;
  response <- call (decode ext BankModule_QueryBalanceResponse data) ;;
  let coin := balance response in
  resolve coin.

Definition getSubaccounts
  : Promise (Response SubaccountsModule_QuerySubaccountAllResponse) :=
  let requestData := encode ext (QueryAllSubaccountRequest None) in
  data <- sendQuery "/dydxprotocol.subaccounts.Query/SubaccountAll"
            requestData ;;
  call (decode ext SubaccountsModule_QuerySubaccountAllResponse data).

Definition getSubaccount (address : string) (accountNumber : Z)
  : Promise (Response SubaccountsModule_QuerySubaccountResponse) :=
  let requestData :=
    encode ext (QueryGetSubaccountRequest address accountNumber) in
  data <- sendQuery "/dydxprotocol.subaccounts.Query/Subaccount"
            requestData ;;
  call (decode ext SubaccountsModule_QuerySubaccountResponse data).

Definition getRewardsParams
  : Promise (Response RewardsModule_QueryParamsResponse) :=
  let requestData := encode ext QueryParamsRequest in
  data <- sendQuery "/dydxprotocol.rewards.Query/Params" requestData ;;
  call (decode ext RewardsModule_QueryParamsResponse data).

Definition getAllClobPairs
  : Promise (Response ClobModule_QueryClobPairAllResponse) :=
  let requestData :=
    encode ext (QueryAllClobPairRequest (Some (PAGE_REQUEST ext))) in
  data <- sendQuery "/dydxprotocol.clob.Query/ClobPairAll" requestData ;;
  call (decode ext ClobModule_QueryClobPairAllResponse data).

Definition getClobPair (pairId : Z)
  : Promise (Response ClobModule_QueryClobPairResponse) :=
  let requestData := encode ext (QueryGetClobPairRequest pairId) in
  data <- sendQuery "/dydxprotocol.clob.Query/ClobPair" requestData ;;
  call (decode ext ClobModule_QueryClobPairResponse data).

Definition getAllPrices
  : Promise (Response PricesModule_QueryAllMarketPricesResponse) :=
  let requestData :=
    encode ext (QueryAllMarketPricesRequest (Some (PAGE_REQUEST ext))) in
  data <- sendQuery "/dydxprotocol.prices.Query/AllMarketPrices"
            requestData ;;
  call (decode ext PricesModule_QueryAllMarketPricesResponse data).

Definition getPrice (marketId : Z)
  : Promise (Response PricesModule_QueryMarketPriceResponse) :=
  let requestData := encode ext (QueryMarketPriceRequest marketId) in
  data <- sendQuery "/dydxprotocol.prices.Query/MarketPrice" requestData ;;
  call (decode ext PricesModule_QueryMarketPriceResponse data).

Definition getAllPerpetuals
  : Promise (Response PerpetualsModule_QueryAllPerpetualsResponse) :=
  let requestData :=
    encode ext (QueryAllPerpetualsRequest (Some (PAGE_REQUEST ext))) in
  data <- sendQuery "/dydxprotocol.perpetuals.Query/AllPerpetuals"
            requestData ;;
  call (decode ext PerpetualsModule_QueryAllPerpetualsResponse data).

Definition getPerpetual (perpetualId : Z)
  : Promise (Response PerpetualsModule_QueryPerpetualResponse) :=
  let requestData := encode ext (QueryPerpetualRequest perpetualId) in
  data <- sendQuery "/dydxprotocol.perpetuals.Query/Perpetual" requestData ;;
  call (decode ext PerpetualsModule_QueryPerpetualResponse data).

Definition getAccount (address : string) : Promise Account :=
  let requestData := encode ext (QueryAccountRequest address) in
  data <- sendQuery "/cosmos.auth.v1beta1.Query/Account" requestData ;;
  response <- call (decode ext AuthModule_QueryAccountResponse data) ;;
  let rawAccount := account response in
  match rawAccount with
  | None => throw UnexpectedClientError
  | Some rawAccount => call (accountFromAny ext rawAccount)
  end.

Definition getEquityTierLimitConfiguration
  : Promise (Response ClobModule_QueryEquityTierLimitConfigurationResponse) :=
  let requestData := encode ext QueryEquityTierLimitConfigurationRequest in
  data <- sendQuery "/dydxprotocol.clob.Query/EquityTierLimitConfiguration"
            requestData ;;
  call (decode ext ClobModule_QueryEquityTierLimitConfigurationResponse data).

Definition getDelegatorDelegations (delegatorAddr : string)
  : Promise (Response StakingModule_QueryDelegatorDelegationsResponse) :=
  let requestData :=
    encode ext
      (QueryDelegatorDelegationsRequest delegatorAddr
         (Some (PAGE_REQUEST ext))) in
  data <- sendQuery "/cosmos.staking.v1beta1.Query/DelegatorDelegations"
            requestData ;;
  call (decode ext StakingModule_QueryDelegatorDelegationsResponse data).

Definition getDelegatorUnbondingDelegations (delegatorAddr : string)
  : Promise
      (Response StakingModule_QueryDelegatorUnbondingDelegationsResponse) :=
  let requestData :=
    encode ext
      (QueryDelegatorUnbondingDelegationsRequest delegatorAddr
         (Some (PAGE_REQUEST ext))) in
  data <- sendQuery
            "/cosmos.staking.v1beta1.Query/DelegatorUnbondingDelegations"
            requestData ;;
  call (decode ext
          StakingModule_QueryDelegatorUnbondingDelegationsResponse data).

(** A parameter with a default value: an omitted argument is [None]. *)
Definition or_default {A} (default : A) (argument : option A) : A :=
  match argument with
  | Some a => a
  | None => default
  end.

Definition getDelayedCompleteBridgeMessages (address : option string)
  : Promise
      (Response BridgeModule_QueryDelayedCompleteBridgeMessagesResponse) :=
  let address := or_default "" address in
  let requestData :=
    encode ext (QueryDelayedCompleteBridgeMessagesRequest address) in
  data <- sendQuery "/dydxprotocol.bridge.Query/DelayedCompleteBridgeMessages"
            requestData ;;
  call (decode ext
          BridgeModule_QueryDelayedCompleteBridgeMessagesResponse data).

Definition getAllValidators (status : option string)
  : Promise (Response StakingModule_QueryValidatorsResponse) :=
  let status := or_default "" status in
  let requestData :=
    encode ext (QueryValidatorsRequest status (Some (PAGE_REQUEST ext))) in
  data <- sendQuery "/cosmos.staking.v1beta1.Query/Validators" requestData ;;
  call (decode ext StakingModule_QueryValidatorsResponse data).

(** *** The public interface as data

    One constructor per method, with its arguments: the twenty methods
    that go through [sendQuery], and the two that read the chain tip. *)

Inductive Query :=
| GetFeeTiers
| GetUserFeeTier (address : string)
| GetUserStats (address : string)
| GetAccountBalances (address : string)
| GetAccountBalance (address denom : string)
| GetSubaccounts
| GetSubaccount (address : string) (accountNumber : Z)
| GetRewardsParams
| GetAllClobPairs
| GetClobPair (pairId : Z)
| GetAllPrices
| GetPrice (marketId : Z)
| GetAllPerpetuals
| GetPerpetual (perpetualId : Z)
| GetAccount (address : string)
| GetEquityTierLimitConfiguration
| GetDelegatorDelegations (delegatorAddr : string)
| GetDelegatorUnbondingDelegations (delegatorAddr : string)
| GetDelayedCompleteBridgeMessages (address : option string)
| GetAllValidators (status : option string).

Inductive Method :=
| LatestBlock
| LatestBlockHeight
| Send (q : Query).

Definition QueryReturns (q : Query) : Type :=
  match q with
  | GetFeeTiers => Response FeeTierModule_QueryPerpetualFeeParamsResponse
  | GetUserFeeTier _ => Response FeeTierModule_QueryUserFeeTierResponse
  | GetUserStats _ => option UserStats
  | GetAccountBalances _ => list Coin
  | GetAccountBalance _ _ => option Coin
  | GetSubaccounts => Response SubaccountsModule_QuerySubaccountAllResponse
  | GetSubaccount _ _ => Response SubaccountsModule_QuerySubaccountResponse
  | GetRewardsParams => Response RewardsModule_QueryParamsResponse
  | GetAllClobPairs => Response ClobModule_QueryClobPairAllResponse
  | GetClobPair _ => Response ClobModule_QueryClobPairResponse
  | GetAllPrices => Response PricesModule_QueryAllMarketPricesResponse
  | GetPrice _ => Response PricesModule_QueryMarketPriceResponse
  | GetAllPerpetuals => Response PerpetualsModule_QueryAllPerpetualsResponse
  | GetPerpetual _ => Response PerpetualsModule_QueryPerpetualResponse
  | GetAccount _ => Account
  | GetEquityTierLimitConfiguration =>
      Response ClobModule_QueryEquityTierLimitConfigurationResponse
  | GetDelegatorDelegations _ =>
      Response StakingModule_QueryDelegatorDelegationsResponse
  | GetDelegatorUnbondingDelegations _ =>
      Response StakingModule_QueryDelegatorUnbondingDelegationsResponse
  | GetDelayedCompleteBridgeMessages _ =>
      Response BridgeModule_QueryDelayedCompleteBridgeMessagesResponse
  | GetAllValidators _ => Response StakingModule_QueryValidatorsResponse
  end.

Definition Returns (m : Method) : Type :=
  match m with
  | LatestBlock => Block
  | LatestBlockHeight => Z
  | Send q => QueryReturns q
  end.

Definition invokeQuery (q : Query) : Promise (QueryReturns q) :=
  match q with
  | GetFeeTiers => getFeeTiers
  | GetUserFeeTier address => getUserFeeTier address
  | GetUserStats address => getUserStats address
  | GetAccountBalances address => getAccountBalances address
  | GetAccountBalance address denom => getAccountBalance address denom
  | GetSubaccounts => getSubaccounts
  | GetSubaccount address accountNumber => getSubaccount address accountNumber
  | GetRewardsParams => getRewardsParams
  | GetAllClobPairs => getAllClobPairs
  | GetClobPair pairId => getClobPair pairId
  | GetAllPrices => getAllPrices
  | GetPrice marketId => getPrice marketId
  | GetAllPerpetuals => getAllPerpetuals
  | GetPerpetual perpetualId => getPerpetual perpetualId
  | GetAccount address => getAccount address
  | GetEquityTierLimitConfiguration => getEquityTierLimitConfiguration
  | GetDelegatorDelegations delegatorAddr =>
      getDelegatorDelegations delegatorAddr
  | GetDelegatorUnbondingDelegations delegatorAddr =>
      getDelegatorUnbondingDelegations delegatorAddr
  | GetDelayedCompleteBridgeMessages address =>
      getDelayedCompleteBridgeMessages address
  | GetAllValidators status => getAllValidators status
  end.

Definition invoke (m : Method) : Promise (Returns m) :=
  match m with
  | LatestBlock => latestBlock
  | LatestBlockHeight => latestBlockHeight
  | Send q => invokeQuery q
  end.

(** What the transport answered to a call, and the node it left. *)
Inductive Answer :=
| BlockAnswer (r : JsError + Block)
| QueryAnswer (r : JsError + bytes).

Definition answerTo (c : RemoteCall) (s : Sys) : Answer * World :=
  match c with
  | GetBlock =>
      let answer := getBlock (tendermintClient (this s)) (node s) in
      (BlockAnswer (fst answer), snd answer)
  | QueryUnverified requestUrl requestData =>
      let answer :=
        queryUnverified (stargateQueryClient (this s)) requestUrl requestData
          (node s) in
      (QueryAnswer (fst answer), snd answer)
  end.

Definition failure (a : Answer) : option JsError :=
  match a with
  | BlockAnswer (inl e) | QueryAnswer (inl e) => Some e
  | _ => None
  end.

End Gateway.

Arguments getBlock {World}.
Arguments queryUnverified {World}.
Arguments tendermintClient {World}.
Arguments stargateQueryClient {World}.
Arguments this {World}.
Arguments node {World}.
Arguments calls {World}.
Arguments resolve {World A}.
Arguments throw {World A}.
Arguments await {World A B}.
Arguments call {World A}.
Arguments sendQuery {World}.
Arguments latestBlock {World}.
Arguments latestBlockHeight {World}.
Arguments getFeeTiers {World}.
Arguments getUserFeeTier {World}.
Arguments getUserStats {World}.
Arguments getAccountBalances {World}.
Arguments getAccountBalance {World}.
Arguments getSubaccounts {World}.
Arguments getSubaccount {World}.
Arguments getRewardsParams {World}.
Arguments getAllClobPairs {World}.
Arguments getClobPair {World}.
Arguments getAllPrices {World}.
Arguments getPrice {World}.
Arguments getAllPerpetuals {World}.
Arguments getPerpetual {World}.
Arguments getAccount {World}.
Arguments getEquityTierLimitConfiguration {World}.
Arguments getDelegatorDelegations {World}.
Arguments getDelegatorUnbondingDelegations {World}.
Arguments getDelayedCompleteBridgeMessages {World}.
Arguments getAllValidators {World}.
Arguments invokeQuery {World}.
Arguments invoke {World}.
Arguments answerTo {World}.

(** *** The dispatch table, read off the call sites

    For each query method: its name, the path literal it passes to
    [sendQuery], the request value it builds and the two codec objects
    it names. *)

Definition methodName (q : Query) : string :=
  match q with
  | GetFeeTiers => "getFeeTiers"
  | GetUserFeeTier _ => "getUserFeeTier"
  | GetUserStats _ => "getUserStats"
  | GetAccountBalances _ => "getAccountBalances"
  | GetAccountBalance _ _ => "getAccountBalance"
  | GetSubaccounts => "getSubaccounts"
  | GetSubaccount _ _ => "getSubaccount"
  | GetRewardsParams => "getRewardsParams"
  | GetAllClobPairs => "getAllClobPairs"
  | GetClobPair _ => "getClobPair"
  | GetAllPrices => "getAllPrices"
  | GetPrice _ => "getPrice"
  | GetAllPerpetuals => "getAllPerpetuals"
  | GetPerpetual _ => "getPerpetual"
  | GetAccount _ => "getAccount"
  | GetEquityTierLimitConfiguration => "getEquityTierLimitConfiguration"
  | GetDelegatorDelegations _ => "getDelegatorDelegations"
  | GetDelegatorUnbondingDelegations _ => "getDelegatorUnbondingDelegations"
  | GetDelayedCompleteBridgeMessages _ => "getDelayedCompleteBridgeMessages"
  | GetAllValidators _ => "getAllValidators"
  end.

Definition pathOf (q : Query) : string :=
  match q with
  | GetFeeTiers => "/dydxprotocol.feetiers.Query/PerpetualFeeParams"
  | GetUserFeeTier _ => "/dydxprotocol.feetiers.Query/UserFeeTier"
  | GetUserStats _ => "/dydxprotocol.stats.Query/UserStats"
  | GetAccountBalances _ => "/cosmos.bank.v1beta1.Query/AllBalances"
  | GetAccountBalance _ _ => "/cosmos.bank.v1beta1.Query/Balance"
  | GetSubaccounts => "/dydxprotocol.subaccounts.Query/SubaccountAll"
  | GetSubaccount _ _ => "/dydxprotocol.subaccounts.Query/Subaccount"
  | GetRewardsParams => "/dydxprotocol.rewards.Query/Params"
  | GetAllClobPairs => "/dydxprotocol.clob.Query/ClobPairAll"
  | GetClobPair _ => "/dydxprotocol.clob.Query/ClobPair"
  | GetAllPrices => "/dydxprotocol.prices.Query/AllMarketPrices"
  | GetPrice _ => "/dydxprotocol.prices.Query/MarketPrice"
  | GetAllPerpetuals => "/dydxprotocol.perpetuals.Query/AllPerpetuals"
  | GetPerpetual _ => "/dydxprotocol.perpetuals.Query/Perpetual"
  | GetAccount _ => "/cosmos.auth.v1beta1.Query/Account"
  | GetEquityTierLimitConfiguration =>
      "/dydxprotocol.clob.Query/EquityTierLimitConfiguration"
  | GetDelegatorDelegations _ =>
      "/cosmos.staking.v1beta1.Query/DelegatorDelegations"
  | GetDelegatorUnbondingDelegations _ =>
      "/cosmos.staking.v1beta1.Query/DelegatorUnbondingDelegations"
  | GetDelayedCompleteBridgeMessages _ =>
      "/dydxprotocol.bridge.Query/DelayedCompleteBridgeMessages"
  | GetAllValidators _ => "/cosmos.staking.v1beta1.Query/Validators"
  end.

Definition requestOf (ext : Imports) (q : Query) : Request :=
  match q with
  | GetFeeTiers => QueryPerpetualFeeParamsRequest
  | GetUserFeeTier address => QueryUserFeeTierRequest address
  | GetUserStats address => QueryUserStatsRequest address
  | GetAccountBalances address => QueryAllBalancesRequest address None
  | GetAccountBalance address denom => QueryBalanceRequest address denom
  | GetSubaccounts => QueryAllSubaccountRequest None
  | GetSubaccount address accountNumber =>
      QueryGetSubaccountRequest address accountNumber
  | GetRewardsParams => QueryParamsRequest
  | GetAllClobPairs => QueryAllClobPairRequest (Some (PAGE_REQUEST ext))
  | GetClobPair pairId => QueryGetClobPairRequest pairId
  | GetAllPrices => QueryAllMarketPricesRequest (Some (PAGE_REQUEST ext))
  | GetPrice marketId => QueryMarketPriceRequest marketId
  | GetAllPerpetuals => QueryAllPerpetualsRequest (Some (PAGE_REQUEST ext))
  | GetPerpetual perpetualId => QueryPerpetualRequest perpetualId
  | GetAccount address => QueryAccountRequest address
  | GetEquityTierLimitConfiguration => QueryEquityTierLimitConfigurationRequest
  | GetDelegatorDelegations delegatorAddr =>
      QueryDelegatorDelegationsRequest delegatorAddr (Some (PAGE_REQUEST ext))
  | GetDelegatorUnbondingDelegations delegatorAddr =>
      QueryDelegatorUnbondingDelegationsRequest delegatorAddr
        (Some (PAGE_REQUEST ext))
  | GetDelayedCompleteBridgeMessages address =>
      QueryDelayedCompleteBridgeMessagesRequest (or_default "" address)
  | GetAllValidators status =>
      QueryValidatorsRequest (or_default "" status) (Some (PAGE_REQUEST ext))
  end.

Definition responseTypeOf (q : Query) : ResponseType :=
  match q with
  | GetFeeTiers => FeeTierModule_QueryPerpetualFeeParamsResponse
  | GetUserFeeTier _ => FeeTierModule_QueryUserFeeTierResponse
  | GetUserStats _ => StatsModule_QueryUserStatsResponse
  | GetAccountBalances _ => BankModule_QueryAllBalancesResponse
  | GetAccountBalance _ _ => BankModule_QueryBalanceResponse
  | GetSubaccounts => SubaccountsModule_QuerySubaccountAllResponse
  | GetSubaccount _ _ => SubaccountsModule_QuerySubaccountResponse
  | GetRewardsParams => RewardsModule_QueryParamsResponse
  | GetAllClobPairs => ClobModule_QueryClobPairAllResponse
  | GetClobPair _ => ClobModule_QueryClobPairResponse
  | GetAllPrices => PricesModule_QueryAllMarketPricesResponse
  | GetPrice _ => PricesModule_QueryMarketPriceResponse
  | GetAllPerpetuals => PerpetualsModule_QueryAllPerpetualsResponse
  | GetPerpetual _ => PerpetualsModule_QueryPerpetualResponse
  | GetAccount _ => AuthModule_QueryAccountResponse
  | GetEquityTierLimitConfiguration =>
      ClobModule_QueryEquityTierLimitConfigurationResponse
  | GetDelegatorDelegations _ =>
      StakingModule_QueryDelegatorDelegationsResponse
  | GetDelegatorUnbondingDelegations _ =>
      StakingModule_QueryDelegatorUnbondingDelegationsResponse
  | GetDelayedCompleteBridgeMessages _ =>
      BridgeModule_QueryDelayedCompleteBridgeMessagesResponse
  | GetAllValidators _ => StakingModule_QueryValidatorsResponse
  end.

(** The remote call a method issues. *)
Definition remoteCallOf (ext : Imports) (m : Method) : RemoteCall :=
  match m with
  | LatestBlock | LatestBlockHeight => GetBlock
  | Send q => QueryUnverified (pathOf q) (encode ext (requestOf ext q))
  end.

(** The imported modules the codec objects come from. *)
Inductive ProtoModule :=
| AuthModule
| BankModule
| BridgeModule
| ClobModule
| FeeTierModule
| PerpetualsModule
| PricesModule
| RewardsModule
| SubaccountsModule
| StakingModule
| StatsModule.

Definition requestModule (t : RequestType) : ProtoModule :=
  match t with
  | FeeTierModule_QueryPerpetualFeeParamsRequest
  | FeeTierModule_QueryUserFeeTierRequest => FeeTierModule
  | StatsModule_QueryUserStatsRequest => StatsModule
  | BankModule_QueryAllBalancesRequest
  | BankModule_QueryBalanceRequest => BankModule
  | SubaccountsModule_QueryAllSubaccountRequest
  | SubaccountsModule_QueryGetSubaccountRequest => SubaccountsModule
  | RewardsModule_QueryParamsRequest => RewardsModule
  | ClobModule_QueryAllClobPairRequest
  | ClobModule_QueryGetClobPairRequest
  | ClobModule_QueryEquityTierLimitConfigurationRequest => ClobModule
  | PricesModule_QueryAllMarketPricesRequest
  | PricesModule_QueryMarketPriceRequest => PricesModule
  | PerpetualsModule_QueryAllPerpetualsRequest
  | PerpetualsModule_QueryPerpetualRequest => PerpetualsModule
  | AuthModule_QueryAccountRequest => AuthModule
  | StakingModule_QueryDelegatorDelegationsRequest
  | StakingModule_QueryDelegatorUnbondingDelegationsRequest
  | StakingModule_QueryValidatorsRequest => StakingModule
  | BridgeModule_QueryDelayedCompleteBridgeMessagesRequest => BridgeModule
  end.

Definition responseModule (t : ResponseType) : ProtoModule :=
  match t with
  | FeeTierModule_QueryPerpetualFeeParamsResponse
  | FeeTierModule_QueryUserFeeTierResponse => FeeTierModule
  | StatsModule_QueryUserStatsResponse => StatsModule
  | BankModule_QueryAllBalancesResponse
  | BankModule_QueryBalanceResponse => BankModule
  | SubaccountsModule_QuerySubaccountAllResponse
  | SubaccountsModule_QuerySubaccountResponse => SubaccountsModule
  | RewardsModule_QueryParamsResponse => RewardsModule
  | ClobModule_QueryClobPairAllResponse
  | ClobModule_QueryClobPairResponse
  | ClobModule_QueryEquityTierLimitConfigurationResponse => ClobModule
  | PricesModule_QueryAllMarketPricesResponse
  | PricesModule_QueryMarketPriceResponse => PricesModule
  | PerpetualsModule_QueryAllPerpetualsResponse
  | PerpetualsModule_QueryPerpetualResponse => PerpetualsModule
  | AuthModule_QueryAccountResponse => AuthModule
  | StakingModule_QueryDelegatorDelegationsResponse
  | StakingModule_QueryDelegatorUnbondingDelegationsResponse
  | StakingModule_QueryValidatorsResponse => StakingModule
  | BridgeModule_QueryDelayedCompleteBridgeMessagesResponse => BridgeModule
  end.

(** The name of a response message, as the call site writes it after
    the module. *)
Definition responseName (t : ResponseType) : string :=
  match t with
  | FeeTierModule_QueryPerpetualFeeParamsResponse =>
      "QueryPerpetualFeeParamsResponse"
  | FeeTierModule_QueryUserFeeTierResponse => "QueryUserFeeTierResponse"
  | StatsModule_QueryUserStatsResponse => "QueryUserStatsResponse"
  | BankModule_QueryAllBalancesResponse => "QueryAllBalancesResponse"
  | BankModule_QueryBalanceResponse => "QueryBalanceResponse"
  | SubaccountsModule_QuerySubaccountAllResponse => "QuerySubaccountAllResponse"
  | SubaccountsModule_QuerySubaccountResponse => "QuerySubaccountResponse"
  | RewardsModule_QueryParamsResponse => "QueryParamsResponse"
  | ClobModule_QueryClobPairAllResponse => "QueryClobPairAllResponse"
  | ClobModule_QueryClobPairResponse => "QueryClobPairResponse"
  | PricesModule_QueryAllMarketPricesResponse => "QueryAllMarketPricesResponse"
  | PricesModule_QueryMarketPriceResponse => "QueryMarketPriceResponse"
  | PerpetualsModule_QueryAllPerpetualsResponse => "QueryAllPerpetualsResponse"
  | PerpetualsModule_QueryPerpetualResponse => "QueryPerpetualResponse"
  | AuthModule_QueryAccountResponse => "QueryAccountResponse"
  | ClobModule_QueryEquityTierLimitConfigurationResponse =>
      "QueryEquityTierLimitConfigurationResponse"
  | StakingModule_QueryDelegatorDelegationsResponse =>
      "QueryDelegatorDelegationsResponse"
  | StakingModule_QueryDelegatorUnbondingDelegationsResponse =>
      "QueryDelegatorUnbondingDelegationsResponse"
  | BridgeModule_QueryDelayedCompleteBridgeMessagesResponse =>
      "QueryDelayedCompleteBridgeMessagesResponse"
  | StakingModule_QueryValidatorsResponse => "QueryValidatorsResponse"
  end.

(** The query service each module talks to: the part of a path up to
    its last slash. *)
Definition servicePath (m : ProtoModule) : string :=
  match m with
  | AuthModule => "/cosmos.auth.v1beta1.Query/"
  | BankModule => "/cosmos.bank.v1beta1.Query/"
  | BridgeModule => "/dydxprotocol.bridge.Query/"
  | ClobModule => "/dydxprotocol.clob.Query/"
  | FeeTierModule => "/dydxprotocol.feetiers.Query/"
  | PerpetualsModule => "/dydxprotocol.perpetuals.Query/"
  | PricesModule => "/dydxprotocol.prices.Query/"
  | RewardsModule => "/dydxprotocol.rewards.Query/"
  | SubaccountsModule => "/dydxprotocol.subaccounts.Query/"
  | StakingModule => "/cosmos.staking.v1beta1.Query/"
  | StatsModule => "/dydxprotocol.stats.Query/"
  end.

(** The part of a path after its last slash: the name of the remote
    procedure. *)
Fixpoint rpcName (path : string) : string :=
  match path with
  | EmptyString => EmptyString
  | String c rest =>
      if Ascii.eqb c "/"%char then rpcName rest
      else if existsb (Ascii.eqb "/"%char) (list_ascii_of_string rest)
           then rpcName rest
           else path
  end.

(** What each query method does with the decoded response. *)
Definition deliver (ext : Imports) (q : Query)
  : Resp (Opaque ext) (responseTypeOf q) -> Result (QueryReturns ext q) :=
  match q with
  | GetUserStats _ => fun response => inr (stats response)
  | GetAccountBalances _ => fun response => inr (balances response)
  | GetAccountBalance _ _ => fun response => inr (balance response)
  | GetAccount _ => fun response =>
      match account response with
      | None => inl UnexpectedClientError
      | Some rawAccount => rethrow (accountFromAny ext rawAccount)
      end
  | _ => fun response => inr response
  end.

(** The numeric arguments of a call lie in the range of the field they
    are written to. *)
Definition uint32Arguments (q : Query) : Prop :=
  match q with
  | GetSubaccount _ accountNumber => uint32 accountNumber
  | GetClobPair pairId => uint32 pairId
  | GetPrice marketId => uint32 marketId
  | GetPerpetual perpetualId => uint32 perpetualId
  | _ => True
  end.

(** The uniform algorithm: build the request, encode it, send it to the
    path, decode the answer with the response type of that path, hand
    the result over.  A rejection of the transport and an exception of
    the decoder pass through. *)
Definition pipeline {World} (ext : Imports) (q : Query)
  : Promise World (QueryReturns ext q) :=
  fun s =>
    let requestData := encode ext (requestOf ext q) in
    let answer :=
      queryUnverified (stargateQueryClient (this s)) (pathOf q) requestData
        (node s) in
    (match fst answer with
     | inl e => inl (Raised e)
     | inr data =>
         match decode ext (responseTypeOf q) data with
         | inl e => inl (Raised e)
         | inr response => deliver ext q response
         end
     end,
     {| this := this s; node := snd answer;
        calls := calls s ++ [QueryUnverified (pathOf q) requestData] |}).

(** ** The protobuf codecs

    The message codecs ("serializes a protobuf request ... deserializes
    the protobuf response") are generated code that the gateway imports;
    none of it is in the gateway's file.  Each encoder writes the fields
    of its message in field-number order and leaves out a field that
    holds its default; each decoder starts from the base message, lets
    every field it knows update it and skips the others. *)

Module Protobuf.

(** Read a field value and store it. *)
Definition set_field {M A} (read : WireValue -> option A) (v : WireValue)
  (update : A -> M) : option M :=
  a <-? read v ;; Some (update a).

(** Modelled from the spec: the encoder of the pagination descriptor
    ("page size/offset/count-total flags"): key, offset, limit,
    count-total and reverse are the fields 1 to 5. *)
Definition encodePageRequest (p : PageRequest) : bytes :=
  write_fields
    (bytes_field 1 (key p) ++ uint64_field 2 (offset p) ++
     uint64_field 3 (limit p) ++ bool_field 4 (countTotal p) ++
     bool_field 5 (reverse p)).

(** Modelled from the spec: the pagination descriptor with every field
    at its default. *)
Definition basePageRequest : PageRequest :=
  {| key := []; offset := 0; limit := 0; countTotal := false;
     reverse := false |}.

(** Modelled from the spec: one step of the decoder of the pagination
    descriptor. *)
Definition readPageRequestField (m : PageRequest) (f : RawField)
  : option PageRequest :=
  let '(num, v) := f in
  match num with
  | 1 => set_field as_bytes v (fun x =>
           {| key := x; offset := offset m; limit := limit m;
              countTotal := countTotal m; reverse := reverse m |})
  | 2 => set_field as_uint64 v (fun x =>
           {| key := key m; offset := x; limit := limit m;
              countTotal := countTotal m; reverse := reverse m |})
  | 3 => set_field as_uint64 v (fun x =>
           {| key := key m; offset := offset m; limit := x;
              countTotal := countTotal m; reverse := reverse m |})
  | 4 => set_field as_bool v (fun x =>
           {| key := key m; offset := offset m; limit := limit m;
              countTotal := x; reverse := reverse m |})
  | 5 => set_field as_bool v (fun x =>
           {| key := key m; offset := offset m; limit := limit m;
              countTotal := countTotal m; reverse := x |})
  | _ => Some m
  end.

(** Modelled from the spec: the decoder of the pagination descriptor. *)
Definition decodePageRequest (data : bytes) : option PageRequest :=
  fs <-? parse data ;; read_message readPageRequestField basePageRequest fs.

(** Modelled from the spec: the fields each request encoder writes; the
    fields of a message are numbered in the order of its declaration,
    with the pagination last. *)
Definition requestFields (r : Request) : list RawField :=
  let page := message_field encodePageRequest in
  match r with
  | QueryPerpetualFeeParamsRequest => []
  | QueryUserFeeTierRequest user => string_field 1 user
  | QueryUserStatsRequest user => string_field 1 user
  | QueryAllBalancesRequest address pagination =>
      string_field 1 address ++ page 2 pagination
  | QueryBalanceRequest address denom =>
      string_field 1 address ++ string_field 2 denom
  | QueryAllSubaccountRequest pagination => page 1 pagination
  | QueryGetSubaccountRequest owner number =>
      string_field 1 owner ++ uint32_field 2 number
  | QueryParamsRequest => []
  | QueryAllClobPairRequest pagination => page 1 pagination
  | QueryGetClobPairRequest id => uint32_field 1 id
  | QueryAllMarketPricesRequest pagination => page 1 pagination
  | QueryMarketPriceRequest id => uint32_field 1 id
  | QueryAllPerpetualsRequest pagination => page 1 pagination
  | QueryPerpetualRequest id => uint32_field 1 id
  | QueryAccountRequest address => string_field 1 address
  | QueryEquityTierLimitConfigurationRequest => []
  | QueryDelegatorDelegationsRequest delegatorAddr pagination =>
      string_field 1 delegatorAddr ++ page 2 pagination
  | QueryDelegatorUnbondingDelegationsRequest delegatorAddr pagination =>
      string_field 1 delegatorAddr ++ page 2 pagination
  | QueryDelayedCompleteBridgeMessagesRequest address => string_field 1 address
  | QueryValidatorsRequest status pagination =>
      string_field 1 status ++ page 2 pagination
  end.

(** Modelled from the spec: [Message.encode(request).finish()]. *)
Definition encodeRequest (r : Request) : bytes :=
  write_fields (requestFields r).

(** Modelled from the spec: the base message of each request type. *)
Definition createBaseRequest (t : RequestType) : Request :=
  match t with
  | FeeTierModule_QueryPerpetualFeeParamsRequest =>
      QueryPerpetualFeeParamsRequest
  | FeeTierModule_QueryUserFeeTierRequest => QueryUserFeeTierRequest ""
  | StatsModule_QueryUserStatsRequest => QueryUserStatsRequest ""
  | BankModule_QueryAllBalancesRequest => QueryAllBalancesRequest "" None
  | BankModule_QueryBalanceRequest => QueryBalanceRequest "" ""
  | SubaccountsModule_QueryAllSubaccountRequest =>
      QueryAllSubaccountRequest None
  | SubaccountsModule_QueryGetSubaccountRequest =>
      QueryGetSubaccountRequest "" 0
  | RewardsModule_QueryParamsRequest => QueryParamsRequest
  | ClobModule_QueryAllClobPairRequest => QueryAllClobPairRequest None
  | ClobModule_QueryGetClobPairRequest => QueryGetClobPairRequest 0
  | PricesModule_QueryAllMarketPricesRequest =>
      QueryAllMarketPricesRequest None
  | PricesModule_QueryMarketPriceRequest => QueryMarketPriceRequest 0
  | PerpetualsModule_QueryAllPerpetualsRequest =>
      QueryAllPerpetualsRequest None
  | PerpetualsModule_QueryPerpetualRequest => QueryPerpetualRequest 0
  | AuthModule_QueryAccountRequest => QueryAccountRequest ""
  | ClobModule_QueryEquityTierLimitConfigurationRequest =>
      QueryEquityTierLimitConfigurationRequest
  | StakingModule_QueryDelegatorDelegationsRequest =>
      QueryDelegatorDelegationsRequest "" None
  | StakingModule_QueryDelegatorUnbondingDelegationsRequest =>
      QueryDelegatorUnbondingDelegationsRequest "" None
  | BridgeModule_QueryDelayedCompleteBridgeMessagesRequest =>
      QueryDelayedCompleteBridgeMessagesRequest ""
  | StakingModule_QueryValidatorsRequest => QueryValidatorsRequest "" None
  end.

(** Modelled from the spec: one step of the request decoders; a field
    the message does not have is skipped. *)
Definition readRequestField (m : Request) (f : RawField) : option Request :=
  let '(num, v) := f in
  let page := as_message decodePageRequest in
  match m, num with
  | QueryUserFeeTierRequest _, 1 => set_field as_string v QueryUserFeeTierRequest
  | QueryUserStatsRequest _, 1 => set_field as_string v QueryUserStatsRequest
  | QueryAllBalancesRequest _ p, 1 =>
      set_field as_string v (fun x => QueryAllBalancesRequest x p)
  | QueryAllBalancesRequest a _, 2 =>
      set_field page v (fun x => QueryAllBalancesRequest a (Some x))
  | QueryBalanceRequest _ d, 1 =>
      set_field as_string v (fun x => QueryBalanceRequest x d)
  | QueryBalanceRequest a _, 2 =>
      set_field as_string v (fun x => QueryBalanceRequest a x)
  | QueryAllSubaccountRequest _, 1 =>
      set_field page v (fun x => QueryAllSubaccountRequest (Some x))
  | QueryGetSubaccountRequest _ n, 1 =>
      set_field as_string v (fun x => QueryGetSubaccountRequest x n)
  | QueryGetSubaccountRequest o _, 2 =>
      set_field as_uint32 v (fun x => QueryGetSubaccountRequest o x)
  | QueryAllClobPairRequest _, 1 =>
      set_field page v (fun x => QueryAllClobPairRequest (Some x))
  | QueryGetClobPairRequest _, 1 => set_field as_uint32 v QueryGetClobPairRequest
  | QueryAllMarketPricesRequest _, 1 =>
      set_field page v (fun x => QueryAllMarketPricesRequest (Some x))
  | QueryMarketPriceRequest _, 1 => set_field as_uint32 v QueryMarketPriceRequest
  | QueryAllPerpetualsRequest _, 1 =>
      set_field page v (fun x => QueryAllPerpetualsRequest (Some x))
  | QueryPerpetualRequest _, 1 => set_field as_uint32 v QueryPerpetualRequest
  | QueryAccountRequest _, 1 => set_field as_string v QueryAccountRequest
  | QueryDelegatorDelegationsRequest _ p, 1 =>
      set_field as_string v (fun x => QueryDelegatorDelegationsRequest x p)
  | QueryDelegatorDelegationsRequest a _, 2 =>
      set_field page v (fun x => QueryDelegatorDelegationsRequest a (Some x))
  | QueryDelegatorUnbondingDelegationsRequest _ p, 1 =>
      set_field as_string v
        (fun x => QueryDelegatorUnbondingDelegationsRequest x p)
  | QueryDelegatorUnbondingDelegationsRequest a _, 2 =>
      set_field page v
        (fun x => QueryDelegatorUnbondingDelegationsRequest a (Some x))
  | QueryDelayedCompleteBridgeMessagesRequest _, 1 =>
      set_field as_string v QueryDelayedCompleteBridgeMessagesRequest
  | QueryValidatorsRequest _ p, 1 =>
      set_field as_string v (fun x => QueryValidatorsRequest x p)
  | QueryValidatorsRequest a _, 2 =>
      set_field page v (fun x => QueryValidatorsRequest a (Some x))
  | _, _ => Some m
  end.

(** Modelled from the spec: [Message.decode(data)] for the request
    type [t]. *)
Definition decodeRequest (t : RequestType) (data : bytes) : option Request :=
  fs <-? parse data ;;
  read_message readRequestField (createBaseRequest t) fs.

(** Modelled from the spec: one step of the decoder of a coin. *)
Definition readCoinField (m : Coin) (f : RawField) : option Coin :=
  let '(num, v) := f in
  match num with
  | 1 => set_field as_string v (fun x => {| denom := x; amount := amount m |})
  | 2 => set_field as_string v (fun x => {| denom := denom m; amount := x |})
  | _ => Some m
  end.

(** Modelled from the spec: the decoder of a coin, denom then amount. *)
Definition decodeCoin (data : bytes) : option Coin :=
  fs <-? parse data ;;
  read_message readCoinField {| denom := ""; amount := "" |} fs.

(** Modelled from the spec: the encoder of a coin. *)
Definition encodeCoin (c : Coin) : bytes :=
  write_fields (string_field 1 (denom c) ++ string_field 2 (amount c)).

(** Modelled from the spec: one step of the decoder of the stats record,
    taker then maker notional. *)
Definition readUserStatsField (m : UserStats) (f : RawField)
  : option UserStats :=
  let '(num, v) := f in
  match num with
  | 1 => set_field as_uint64 v (fun x =>
           {| takerNotional := x; makerNotional := makerNotional m |})
  | 2 => set_field as_uint64 v (fun x =>
           {| takerNotional := takerNotional m; makerNotional := x |})
  | _ => Some m
  end.

(** Modelled from the spec: the decoder of the stats record. *)
Definition decodeUserStats (data : bytes) : option UserStats :=
  fs <-? parse data ;;
  read_message readUserStatsField
    {| takerNotional := 0; makerNotional := 0 |} fs.

(** Modelled from the spec: one step of the decoder of a tagged
    envelope, type url then value. *)
Definition readAnyField (m : Any) (f : RawField) : option Any :=
  let '(num, v) := f in
  match num with
  | 1 => set_field as_string v (fun x => {| typeUrl := x; value := value m |})
  | 2 => set_field as_bytes v (fun x => {| typeUrl := typeUrl m; value := x |})
  | _ => Some m
  end.

(** Modelled from the spec: the decoder of a tagged envelope. *)
Definition decodeAny (data : bytes) : option Any :=
  fs <-? parse data ;;
  read_message readAnyField {| typeUrl := ""; value := [] |} fs.

(** Modelled from the spec: the encoder of a tagged envelope. *)
Definition encodeAny (a : Any) : bytes :=
  write_fields (string_field 1 (typeUrl a) ++ bytes_field 2 (value a)).

(** Modelled from the spec: the decoder of [QueryUserStatsResponse];
    the stats record is its field 1. *)
Definition decodeQueryUserStatsResponse (data : bytes)
  : option QueryUserStatsResponse :=
  fs <-? parse data ;;
  read_message
    (fun m f =>
       match fst f with
       | 1 => set_field (as_message decodeUserStats) (snd f)
                (fun x => {| stats := Some x |})
       | _ => Some m
       end)
    {| stats := None |} fs.

(** Modelled from the spec: the decoder of [QueryAllBalancesResponse];
    every field 1 adds a coin to the balances. *)
Definition decodeQueryAllBalancesResponse (data : bytes)
  : option QueryAllBalancesResponse :=
  fs <-? parse data ;;
  read_message
    (fun m f =>
       match fst f with
       | 1 => set_field (as_message decodeCoin) (snd f)
                (fun x => {| balances := balances m ++ [x] |})
       | _ => Some m
       end)
    {| balances := [] |} fs.

(** Modelled from the spec: the decoder of [QueryBalanceResponse]; the
    coin is its field 1. *)
Definition decodeQueryBalanceResponse (data : bytes)
  : option QueryBalanceResponse :=
  fs <-? parse data ;;
  read_message
    (fun m f =>
       match fst f with
       | 1 => set_field (as_message decodeCoin) (snd f)
                (fun x => {| balance := Some x |})
       | _ => Some m
       end)
    {| balance := None |} fs.

(** Modelled from the spec: the decoder of [QueryAccountResponse]; the
    tagged account is its field 1. *)
Definition decodeQueryAccountResponse (data : bytes)
  : option QueryAccountResponse :=
  fs <-? parse data ;;
  read_message
    (fun m f =>
       match fst f with
       | 1 => set_field (as_message decodeAny) (snd f)
                (fun x => {| account := Some x |})
       | _ => Some m
       end)
    {| account := None |} fs.

(** Modelled from the spec: a reader that runs off the end of its buffer
    throws. *)
Definition orThrow {A} (o : option A) : JsError + A :=
  match o with
  | Some a => inr a
  | None => inl {| name := "RangeError"; message := "index out of range" |}
  end.

(** Modelled from the spec: the kinds of field the responses the
    gateway passes on have at their top level: a number, an embedded
    message, a list of embedded messages. *)
Inductive FieldKind :=
| UInt32Field
| MessageField
| RepeatedMessageField.

(** Modelled from the spec: the fields of each response the gateway
    passes on ("the response message type bound to that same path"):
    the entity or the list of entities asked for is field 1, and a list
    is followed by the pagination of the answer as field 2. *)
Definition responseFields (t : ResponseType) : list (N * FieldKind) :=
  match t with
  | FeeTierModule_QueryPerpetualFeeParamsResponse => [(1, MessageField)]
  | FeeTierModule_QueryUserFeeTierResponse =>
      [(1, UInt32Field); (2, MessageField)]
  | SubaccountsModule_QuerySubaccountAllResponse =>
      [(1, RepeatedMessageField); (2, MessageField)]
  | SubaccountsModule_QuerySubaccountResponse => [(1, MessageField)]
  | RewardsModule_QueryParamsResponse => [(1, MessageField)]
  | ClobModule_QueryClobPairAllResponse =>
      [(1, RepeatedMessageField); (2, MessageField)]
  | ClobModule_QueryClobPairResponse => [(1, MessageField)]
  | PricesModule_QueryAllMarketPricesResponse =>
      [(1, RepeatedMessageField); (2, MessageField)]
  | PricesModule_QueryMarketPriceResponse => [(1, MessageField)]
  | PerpetualsModule_QueryAllPerpetualsResponse =>
      [(1, RepeatedMessageField); (2, MessageField)]
  | PerpetualsModule_QueryPerpetualResponse => [(1, MessageField)]
  | ClobModule_QueryEquityTierLimitConfigurationResponse =>
      [(1, MessageField)]
  | StakingModule_QueryDelegatorDelegationsResponse =>
      [(1, RepeatedMessageField); (2, MessageField)]
  | StakingModule_QueryDelegatorUnbondingDelegationsResponse =>
      [(1, RepeatedMessageField); (2, MessageField)]
  | BridgeModule_QueryDelayedCompleteBridgeMessagesResponse =>
      [(1, RepeatedMessageField)]
  | StakingModule_QueryValidatorsResponse =>
      [(1, RepeatedMessageField); (2, MessageField)]
  | StatsModule_QueryUserStatsResponse => [(1, MessageField)]
  | BankModule_QueryAllBalancesResponse =>
      [(1, RepeatedMessageField); (2, MessageField)]
  | BankModule_QueryBalanceResponse => [(1, MessageField)]
  | AuthModule_QueryAccountResponse => [(1, MessageField)]
  end.

(** Modelled from the spec: the value of a decoded field; an embedded
    message is kept as the fields of its payload. *)
Inductive FieldValue :=
| Number (v : Z)
| Embedded (fields : list RawField).

(** Modelled from the spec: a response the gateway passes on, as the
    fields its message type has, by number. *)
Definition Fields (t : ResponseType) : Type := list (N * FieldValue).

(** The kind a message gives to a field number, if it has the field. *)
Fixpoint kindOf (num : N) (schema : list (N * FieldKind))
  : option FieldKind :=
  match schema with
  | [] => None
  | (n, k) :: schema' => if n =? num then Some k else kindOf num schema'
  end.

(** Assign a field that holds one value: a later value replaces an
    earlier one. *)
Fixpoint assign (num : N) (v : FieldValue) (m : list (N * FieldValue))
  : list (N * FieldValue) :=
  match m with
  | [] => [(num, v)]
  | (n, w) :: m' =>
      if n =? num then (num, v) :: m' else (n, w) :: assign num v m'
  end.

(** Modelled from the spec: one step of the decoder of the response
    type [t]: a field of the message must come with the wire type of
    its kind, and its payload must itself be a message when it is one;
    a field the message does not have is skipped. *)
Definition readResponseField (t : ResponseType) (m : Fields t)
  (f : RawField) : option (Fields t) :=
  let '(num, v) := f in
  match kindOf num (responseFields t) with
  | Some UInt32Field =>
      set_field as_uint32 v (fun x => assign num (Number x) m)
  | Some MessageField =>
      set_field (as_message parse) v (fun x => assign num (Embedded x) m)
  | Some RepeatedMessageField =>
      set_field (as_message parse) v (fun x => m ++ [(num, Embedded x)])
  | None => Some m
  end.

(** Modelled from the spec: the decoder of a response the gateway
    passes on, by its message type. *)
Definition decodeFields (t : ResponseType) (data : bytes)
  : option (Fields t) :=
  fs <-? parse data ;; read_message (readResponseField t) [] fs.

(** Modelled from the spec: [Message.decode(data)] for the response
    type [t]. *)
Definition decodeResponse (t : ResponseType) (data : bytes)
  : JsError + Resp Fields t :=
  match t return JsError + Resp Fields t with
  | StatsModule_QueryUserStatsResponse =>
      orThrow (decodeQueryUserStatsResponse data)
  | BankModule_QueryAllBalancesResponse =>
      orThrow (decodeQueryAllBalancesResponse data)
  | BankModule_QueryBalanceResponse =>
      orThrow (decodeQueryBalanceResponse data)
  | AuthModule_QueryAccountResponse =>
      orThrow (decodeQueryAccountResponse data)
  | _ => orThrow (decodeFields t data)
  end.

(** Modelled from the spec: one step of the decoder of a base account
    (address, public key, account number and sequence). *)
Definition readBaseAccountField (m : Account) (f : RawField)
  : option Account :=
  let '(num, v) := f in
  match num with
  | 1 => set_field as_string v (fun x =>
           {| account_address := x; pubkey := pubkey m;
              accountNumber := accountNumber m; sequence := sequence m |})
  | 2 => set_field (as_message decodeAny) v (fun x =>
           {| account_address := account_address m; pubkey := Some x;
              accountNumber := accountNumber m; sequence := sequence m |})
  | 3 => set_field as_uint64 v (fun x =>
           {| account_address := account_address m; pubkey := pubkey m;
              accountNumber := Z.of_N x; sequence := sequence m |})
  | 4 => set_field as_uint64 v (fun x =>
           {| account_address := account_address m; pubkey := pubkey m;
              accountNumber := accountNumber m; sequence := Z.of_N x |})
  | _ => Some m
  end.

(** Modelled from the spec: the decoder of a base account. *)
Definition decodeBaseAccount (data : bytes) : option Account :=
  fs <-? parse data ;;
  read_message readBaseAccountField
    {| account_address := ""; pubkey := None; accountNumber := 0;
       sequence := 0 |} fs.

(** Modelled from the spec: [accountFromAny] is a library function
    ("decode a type-tagged envelope into one of several known concrete
    shapes, selected by an embedded type identifier", failing on an
    unrecognised tag).  Of the shapes, the base account is modelled. *)
Definition accountFromAny (input : Any) : JsError + Account :=
  if String.eqb (typeUrl input) "/cosmos.auth.v1beta1.BaseAccount"
  then orThrow (decodeBaseAccount (value input))
  else inl {| name := "Error";
              message := "Unsupported type: " ++ typeUrl input |}.

(** Modelled from the spec: the imported names, with the protobuf
    codecs and a given pagination default. *)
Definition imports (pageRequest : PageRequest) : Imports :=
  Build_Imports pageRequest encodeRequest Fields decodeResponse accountFromAny.

(** Modelled from the spec: [PAGE_REQUEST] is a constant of
    [../constants], "a fixed default page-size/offset object"; this one
    asks for everything at once, with the total count. *)
Definition pageRequestAll : PageRequest :=
  {| key := []; offset := 0; limit := 2 ^ 64 - 1; countTotal := true;
     reverse := false |}.

End Protobuf.

(** ** A node that serves fixtures

    A transport for concrete runs: it answers each path with the bytes
    bound to it, rejects the paths it does not know, and counts the
    requests it has served. *)

Module Fixture.

Definition World : Type := nat.

Definition notFound : JsError :=
  {| name := "Error"; message := "Query failed: not found" |}.

Fixpoint lookup (path : string) (table : list (string * bytes))
  : option bytes :=
  match table with
  | [] => None
  | (p, data) :: table' =>
      if String.eqb path p then Some data else lookup path table'
  end.

Definition transport (table : list (string * bytes))
  : StargateQueryClient World :=
  {| queryUnverified := fun path _ served =>
       (match lookup path table with
        | Some data => inr data
        | None => inl notFound
        end, S served) |}.

Definition tendermint (tip : JsError + Block) : TendermintClient World :=
  {| getBlock := fun served => (tip, S served) |}.

Definition block12345 : Block :=
  {| block_id := "B1";
     header := {| version_block := "11"; version_app := "0";
                  height := 12345; chainId := "dydx-testnet";
                  time := "2023-09-01T00:00:00Z" |};
     txs := [] |}.

Definition start (table : list (string * bytes)) (tip : JsError + Block)
  : Sys World :=
  {| this := constructor World (tendermint tip) (transport table);
     node := 0%nat; calls := [] |}.

Definition ext : Imports := Protobuf.imports Protobuf.pageRequestAll.

Definition coin : Coin := {| denom := "adv4tnt"; amount := "1000" |}.

Definition balanceOf (c : option Coin) : bytes :=
  write_fields (message_field Protobuf.encodeCoin 1 c).

Definition baseAccount : Any :=
  {| typeUrl := "/cosmos.auth.v1beta1.BaseAccount";
     value := write_fields
                (string_field 1 "dydx1abc" ++ uint64_field 3 7 ++
                 uint64_field 4 42) |}.

Definition accountOf (a : option Any) : bytes :=
  write_fields (message_field Protobuf.encodeAny 1 a).

Definition encodeUserStats (u : UserStats) : bytes :=
  write_fields
    (uint64_field 1 (takerNotional u) ++ uint64_field 2 (makerNotional u)).

Definition statsOf (u : option UserStats) : bytes :=
  write_fields (message_field encodeUserStats 1 u).

Definition volume : UserStats :=
  {| takerNotional := 250000; makerNotional := 1000000 |}.

(** Nodes that know one path each. *)

Definition withAccount (a : option Any) : Sys World :=
  start [("/cosmos.auth.v1beta1.Query/Account", accountOf a)]
    (inr block12345).

Definition withBalance (c : option Coin) : Sys World :=
  start [("/cosmos.bank.v1beta1.Query/Balance", balanceOf c)]
    (inr block12345).

Definition withStats (u : option UserStats) : Sys World :=
  start [("/dydxprotocol.stats.Query/UserStats", statsOf u)]
    (inr block12345).

Definition empty : Sys World := start [] (inr block12345).

End Fixture.

(** ** Callers and other gateways *)

(** The same state with the gateway built on another Tendermint
    client, or on another query client. *)
Definition withTendermintClient {World} (client : TendermintClient World)
  (s : Sys World) : Sys World :=
  {| this := constructor World client (stargateQueryClient (this s));
     node := node s; calls := calls s |}.

Definition withStargateQueryClient {World} (client : StargateQueryClient World)
  (s : Sys World) : Sys World :=
  {| this := constructor World (tendermintClient (this s)) client;
     node := node s; calls := calls s |}.

(** An [async] caller that awaits one method and then calls another. *)
Definition thenInvoke {World} (ext : Imports) (m1 m2 : Method)
  : Promise World (Returns ext m2) :=
  await (invoke ext m1) (fun _ => invoke ext m2).

(** Nodes for the runs of these callers. *)
Module Fixture2.

Definition clobPairPath : string := "/dydxprotocol.clob.Query/ClobPair".

(** A length-delimited field cut off after its tag. *)
Definition truncated : bytes := ["010"%byte].

Definition withClobPair (data : bytes) : Sys Fixture.World :=
  Fixture.start [(clobPairPath, data)] (inr Fixture.block12345).

(** A response that holds the pair of id 7. *)
Definition clobPair7 : bytes :=
  write_fields [(1, LEN (write_fields [(1, VARINT 7)]))].

(** A number where the pair is expected. *)
Definition notAClobPair : bytes := write_fields [(1, VARINT 7)].

Definition otherCoin : Coin := {| denom := "ibc/usdc"; amount := "25" |}.

Definition balancesOf (cs : list Coin) : bytes :=
  write_fields (map (fun c => (1, LEN (Protobuf.encodeCoin c))) cs).

Definition withBalances (cs : list Coin) : Sys Fixture.World :=
  Fixture.start [("/cosmos.bank.v1beta1.Query/AllBalances", balancesOf cs)]
    (inr Fixture.block12345).

End Fixture2.

(** ** Proof steps used more than once *)

(** Open a method down to the calls it makes. *)
Ltac unfold_methods :=
  unfold getFeeTiers, getUserFeeTier, getUserStats, getAccountBalances,
    getAccountBalance, getSubaccounts, getSubaccount, getRewardsParams,
    getAllClobPairs, getClobPair, getAllPrices, getPrice, getAllPerpetuals,
    getPerpetual, getAccount, getEquityTierLimitConfiguration,
    getDelegatorDelegations, getDelegatorUnbondingDelegations,
    getDelayedCompleteBridgeMessages, getAllValidators,
    sendQuery, stargateQueryClient_queryUnverified, await, call, resolve,
    throw.

(** Split on every field being at its default or not. *)
Ltac default_cases :=
  repeat match goal with
  | |- context [String.eqb ?s ""] =>
      is_var s; destruct (String.eqb_spec s ""); [subst s|]
  | |- context [(?v =? 0)%Z] =>
      is_var v; destruct (Z.eqb_spec v 0); [subst v|]
  | |- context [message_field _ _ ?p] => is_var p; destruct p
  end.

(** * Properties *)

(** ** The wire format: what is written is read back *)

Module WireFacts.

Lemma to_N_byte_of_N (n : N) : n < 256 -> Byte.to_N (byte_of_N n) = n.
Proof.
  intros Hn. unfold byte_of_N.
  destruct (Byte.of_N n) as [b|] eqn:E.
  - now apply Byte.to_of_N.
  - apply Byte.of_N_None_iff in E. lia.
Qed.

Lemma read_write_varint (fuel : nat) :
  forall n rest, n < 2 ^ N.of_nat fuel ->
    read_varint (write_varint fuel n ++ rest) = Some (n, rest).
Proof.
  induction fuel as [|fuel IH]; intros n rest Hn.
  - simpl in Hn. assert (n = 0) by lia. subst n. reflexivity.
  - cbn [write_varint].
    destruct (n <? 128) eqn:E.
    + apply N.ltb_lt in E. cbn [app read_varint].
      rewrite to_N_byte_of_N by lia.
      apply N.ltb_lt in E. now rewrite E.
    + apply N.ltb_ge in E. cbn [app read_varint].
      assert (Hm : n mod 128 < 128) by (apply N.mod_lt; lia).
      rewrite to_N_byte_of_N by lia.
      assert (Hf : (n mod 128 + 128 <? 128) = false)
        by apply N.ltb_ge, N.le_add_l.
      rewrite Hf, IH.
      * cbn [obind]. f_equal. f_equal.
        pose proof (N.div_mod n 128 ltac:(lia)) as D.
        revert D. generalize (n mod 128) (n / 128). intros; lia.
      * rewrite Nat2N.inj_succ, N.pow_succ_r' in Hn.
        apply N.Div0.div_lt_upper_bound. lia.
Qed.

Lemma read_varint_varint (n : N) (rest : bytes) :
  read_varint (varint n ++ rest) = Some (n, rest).
Proof.
  unfold varint. apply read_write_varint.
  rewrite N2Nat.id. apply N.size_gt.
Qed.

Lemma varint_cons (n : N) : exists b bs, varint n = b :: bs.
Proof.
  unfold varint. destruct (N.to_nat (N.size n)); cbn [write_varint];
    [|destruct (n <? 128)]; eauto.
Qed.

Lemma take_app (p rest : bytes) :
  take (length p) (p ++ rest) = Some (p, rest).
Proof.
  unfold take. rewrite length_app.
  replace (length p + length rest <? length p)%nat with false
    by (symmetry; apply Nat.ltb_ge; lia).
  rewrite firstn_app, skipn_app, firstn_all, skipn_all, Nat.sub_diag.
  cbn [firstn skipn app]. now rewrite app_nil_r.
Qed.

Lemma tag_div (num wt : N) : wt < 8 -> (num * 8 + wt) / 8 = num.
Proof.
  intros H. rewrite N.add_comm, N.div_add by lia.
  rewrite N.div_small by lia. reflexivity.
Qed.

Lemma tag_mod (num wt : N) : wt < 8 -> (num * 8 + wt) mod 8 = wt.
Proof.
  intros H. rewrite N.add_comm, N.Div0.mod_add.
  now apply N.mod_small.
Qed.

Lemma wire_type_lt (v : WireValue) : wire_type v < 8.
Proof. destruct v; cbn; lia. Qed.

Lemma read_field_write_field (num : N) (v : WireValue) (rest : bytes) :
  wf_value v ->
  read_field (write_field (num, v) ++ rest) = Some ((num, v), rest).
Proof.
  intros Hv. unfold write_field, read_field.
  rewrite <- app_assoc, read_varint_varint. cbn [obind].
  rewrite tag_div, tag_mod by apply wire_type_lt.
  destruct v as [n|p|p|p]; cbn [wire_type wf_value] in *.
  - rewrite read_varint_varint. reflexivity.
  - rewrite <- Hv, take_app. reflexivity.
  - rewrite <- app_assoc, read_varint_varint. cbn [obind].
    rewrite Nat2N.id, take_app. reflexivity.
  - rewrite <- Hv, take_app. reflexivity.
Qed.

Lemma write_field_cons (f : RawField) : exists b bs, write_field f = b :: bs.
Proof.
  destruct f as [num v]. unfold write_field.
  destruct (varint_cons (num * 8 + wire_type v)) as (b & bs & E).
  rewrite E. cbn [app]. eauto.
Qed.

Lemma read_fields_write_fields (fs : list RawField) :
  wf_fields fs ->
  forall fuel, (length (write_fields fs) <= fuel)%nat ->
    read_fields fuel (write_fields fs) = Some fs.
Proof.
  induction 1 as [|[num v] fs Hv Hfs IH]; intros fuel Hfuel.
  - destruct fuel; reflexivity.
  - unfold write_fields in *. cbn [flat_map] in *.
    rewrite length_app in Hfuel.
    destruct (write_field_cons (num, v)) as (b & bs & E).
    assert (R := read_field_write_field num v (flat_map write_field fs) Hv).
    rewrite E in *. cbn [app length] in *.
    destruct fuel as [|fuel]; [lia|].
    cbn [read_fields]. rewrite R. cbn [obind].
    rewrite IH by lia. reflexivity.
Qed.

Lemma parse_write_fields (fs : list RawField) :
  wf_fields fs -> parse (write_fields fs) = Some fs.
Proof. intros H. apply read_fields_write_fields; auto. Qed.

End WireFacts.

(** ** The codecs: a decoded request is the encoded one *)

Module ProtobufFacts.

Import WireFacts Protobuf.

Create HintDb wire.

Lemma wf_fields_app (fs gs : list RawField) :
  wf_fields fs -> wf_fields gs -> wf_fields (fs ++ gs).
Proof. unfold wf_fields. intros. apply Forall_app. auto. Qed.

Lemma wf_string_field (num : N) (s : string) : wf_fields (string_field num s).
Proof. unfold string_field. destruct (_ =? _)%string; repeat constructor. Qed.

Lemma wf_bytes_field (num : N) (b : bytes) : wf_fields (bytes_field num b).
Proof. destruct b; repeat constructor. Qed.

Lemma wf_uint32_field (num : N) (v : Z) : wf_fields (uint32_field num v).
Proof. unfold uint32_field. destruct (_ =? _)%Z; repeat constructor. Qed.

Lemma wf_uint64_field (num v : N) : wf_fields (uint64_field num v).
Proof. unfold uint64_field. destruct (_ =? _); repeat constructor. Qed.

Lemma wf_bool_field (num : N) (b : bool) : wf_fields (bool_field num b).
Proof. destruct b; repeat constructor. Qed.

Lemma wf_message_field {M} (enc : M -> bytes) (num : N) (m : option M) :
  wf_fields (message_field enc num m).
Proof. destruct m; repeat constructor. Qed.

Lemma wf_nil : wf_fields [].
Proof. constructor. Qed.

#[local] Hint Resolve wf_fields_app wf_string_field wf_bytes_field
  wf_uint32_field wf_uint64_field wf_bool_field wf_message_field wf_nil : wire.

Lemma wf_requestFields (r : Request) : wf_fields (requestFields r).
Proof. destruct r; cbn [requestFields]; auto with wire. Qed.

Lemma uint32_read_back (v : Z) :
  uint32 v -> Z.of_N (Z.to_N (v mod 2 ^ 32) mod 2 ^ 32) = v.
Proof.
  unfold uint32. intros H.
  rewrite Z.mod_small by lia.
  rewrite N.mod_small.
  - apply Z2N.id. lia.
  - change (2 ^ 32) with (Z.to_N (2 ^ 32)). apply Z2N.inj_lt; lia.
Qed.

Lemma decodePageRequest_encodePageRequest (p : PageRequest) :
  decodePageRequest (encodePageRequest p) = Some p.
Proof.
  unfold decodePageRequest, encodePageRequest.
  rewrite parse_write_fields by auto 10 with wire.
  destruct p as [k o l c r]. cbn [obind key offset limit countTotal reverse].
  unfold uint64_field.
  destruct k as [|b k]; destruct (N.eqb_spec o 0); destruct (N.eqb_spec l 0);
    destruct c; destruct r; subst; reflexivity.
Qed.

Lemma read_requestFields (r : Request) :
  wellTyped r ->
  read_message readRequestField (createBaseRequest (messageType r))
    (requestFields r) = Some r.
Proof.
  destruct r; cbn [wellTyped messageType createBaseRequest requestFields];
    intros Hr; unfold string_field, uint32_field; default_cases;
    cbv beta iota zeta delta [app read_message readRequestField obind
      set_field as_string as_uint32 as_message message_field];
    rewrite ?decodePageRequest_encodePageRequest,
      ?string_of_list_byte_of_string, ?uint32_read_back by assumption;
    reflexivity.
Qed.

Lemma decodeRequest_encodeRequest (r : Request) :
  wellTyped r -> decodeRequest (messageType r) (encodeRequest r) = Some r.
Proof.
  intros Hr. unfold decodeRequest, encodeRequest.
  rewrite parse_write_fields by apply wf_requestFields.
  cbn [obind]. now apply read_requestFields.
Qed.

End ProtobufFacts.

(** ** The gateway *)

Section GatewayFacts.

Context {World : Type} (ext : Imports).
Implicit Types (s : Sys World) (q : Query) (m : Method).

(** Every query method is the uniform algorithm at its row of the
    dispatch table. *)
Lemma invokeQuery_pipeline q s : invokeQuery ext q s = pipeline ext q s.
Proof.
  destruct q; cbn [invokeQuery]; unfold_methods; unfold pipeline, rethrow;
    cbn [pathOf requestOf responseTypeOf deliver];
    match goal with
    | |- context [queryUnverified ?c ?p ?d ?w] =>
        destruct (queryUnverified c p d w) as [[e|data] w']
    end; cbn [fst snd]; try reflexivity;
    match goal with
    | |- context [decode ext ?t ?d] =>
        destruct (decode ext t d) as [e|response]
    end; cbn; try reflexivity.
  destruct (account response); reflexivity.
Qed.

Lemma latestBlockHeight_run s :
  latestBlockHeight s =
    (match fst (latestBlock s) with
     | inl e => inl e
     | inr block => inr (height (header block))
     end, snd (latestBlock s)).
Proof.
  unfold latestBlockHeight, await, resolve.
  destruct (latestBlock s) as [[e|block] s']; reflexivity.
Qed.

Lemma invoke_calls m s :
  calls (snd (invoke ext m s)) = calls s ++ [remoteCallOf ext m].
Proof.
  destruct m as [| |q]; cbn [invoke remoteCallOf].
  - reflexivity.
  - rewrite latestBlockHeight_run. reflexivity.
  - rewrite invokeQuery_pipeline. reflexivity.
Qed.

Lemma invoke_node m s :
  node (snd (invoke ext m s)) = snd (answerTo (remoteCallOf ext m) s).
Proof.
  destruct m as [| |q]; cbn [invoke remoteCallOf].
  - reflexivity.
  - rewrite latestBlockHeight_run. reflexivity.
  - rewrite invokeQuery_pipeline. reflexivity.
Qed.

Lemma invoke_this m s : this (snd (invoke ext m s)) = this s.
Proof.
  destruct m as [| |q]; cbn [invoke].
  - reflexivity.
  - rewrite latestBlockHeight_run. reflexivity.
  - rewrite invokeQuery_pipeline. reflexivity.
Qed.

(** C1: when the decoded [QueryAccountResponse] has no [account],
    [getAccount] throws [UnexpectedClientError]; when it has one,
    [getAccount] ends as [accountFromAny] does on it, and the error is
    not [UnexpectedClientError]. *)
Theorem getAccount_unexpected_or_account (address : string) s
  (data : bytes) (response : QueryAccountResponse) :
  fst (queryUnverified (stargateQueryClient (this s))
         "/cosmos.auth.v1beta1.Query/Account"
         (encode ext (QueryAccountRequest address)) (node s)) = inr data ->
  decode ext AuthModule_QueryAccountResponse data = inr response ->
  match account response with
  | None => fst (getAccount ext address s) = inl UnexpectedClientError
  | Some rawAccount =>
      fst (getAccount ext address s) = rethrow (accountFromAny ext rawAccount)
      /\ fst (getAccount ext address s) <> inl UnexpectedClientError
  end.
Proof.
  intros Hsend Hdecode.
  change (getAccount ext address s)
    with (invokeQuery ext (GetAccount address) s).
  rewrite invokeQuery_pipeline. unfold pipeline.
  cbn [pathOf requestOf responseTypeOf deliver fst].
  rewrite Hsend, Hdecode.
  destruct (account response) as [rawAccount|]; [split|]; try reflexivity.
  destruct (accountFromAny ext rawAccount); discriminate.
Qed.

(** C3: when the decoded [QueryBalanceResponse] has no [balance],
    [getAccountBalance] resolves to [undefined]; when it has one, it
    resolves to that coin. *)
Theorem getAccountBalance_absent_or_coin (address denom : string) s
  (data : bytes) (response : QueryBalanceResponse) :
  fst (queryUnverified (stargateQueryClient (this s))
         "/cosmos.bank.v1beta1.Query/Balance"
         (encode ext (QueryBalanceRequest address denom)) (node s))
    = inr data ->
  decode ext BankModule_QueryBalanceResponse data = inr response ->
  match balance response with
  | None => fst (getAccountBalance ext address denom s) = inr None
  | Some coin => fst (getAccountBalance ext address denom s) = inr (Some coin)
  end.
Proof.
  intros Hsend Hdecode.
  change (getAccountBalance ext address denom s)
    with (invokeQuery ext (GetAccountBalance address denom) s).
  rewrite invokeQuery_pipeline. unfold pipeline.
  cbn [pathOf requestOf responseTypeOf deliver fst].
  rewrite Hsend, Hdecode.
  destruct (balance response); reflexivity.
Qed.

(** C4: [latestBlockHeight] resolves to the [header.height] of the
    block [latestBlock] resolves to (and rejects as it rejects), leaves
    the node as that one call leaves it, and makes exactly one remote
    call, [getBlock]: no second one, none through [queryUnverified]. *)
Theorem latestBlockHeight_one_round_trip s :
  latestBlockHeight s =
    (match fst (latestBlock s) with
     | inl e => inl e
     | inr block => inr (height (header block))
     end, snd (latestBlock s))
  /\ calls (snd (latestBlockHeight s)) = calls s ++ [GetBlock]
  /\ node (snd (latestBlockHeight s))
     = snd (getBlock (tendermintClient (this s)) (node s)).
Proof.
  rewrite latestBlockHeight_run. repeat split.
Qed.

(** C9: [getUserStats] resolves to the [stats] field of the decoded
    [QueryUserStatsResponse]: [undefined] when it is unset, that record
    when it is set. *)
Theorem getUserStats_absent_or_stats (address : string) s
  (data : bytes) (response : QueryUserStatsResponse) :
  fst (queryUnverified (stargateQueryClient (this s))
         "/dydxprotocol.stats.Query/UserStats"
         (encode ext (QueryUserStatsRequest address)) (node s)) = inr data ->
  decode ext StatsModule_QueryUserStatsResponse data = inr response ->
  match stats response with
  | None => fst (getUserStats ext address s) = inr None
  | Some record => fst (getUserStats ext address s) = inr (Some record)
  end.
Proof.
  intros Hsend Hdecode.
  change (getUserStats ext address s)
    with (invokeQuery ext (GetUserStats address) s).
  rewrite invokeQuery_pipeline. unfold pipeline.
  cbn [pathOf requestOf responseTypeOf deliver fst].
  rewrite Hsend, Hdecode.
  destruct (stats response); reflexivity.
Qed.

(** C10: [getAccountBalance] hands over the decoded coin as it is,
    whatever its denom: nothing compares it with the [denom] asked
    for. *)
Theorem getAccountBalance_returns_decoded_coin (address denom : string) s
  (data : bytes) (response : QueryBalanceResponse) (coin : Coin) :
  fst (queryUnverified (stargateQueryClient (this s))
         "/cosmos.bank.v1beta1.Query/Balance"
         (encode ext (QueryBalanceRequest address denom)) (node s))
    = inr data ->
  decode ext BankModule_QueryBalanceResponse data = inr response ->
  balance response = Some coin ->
  fst (getAccountBalance ext address denom s) = inr (Some coin).
Proof.
  intros Hsend Hdecode Hcoin.
  unfold getAccountBalance, sendQuery, stargateQueryClient_queryUnverified,
    await, call, resolve.
  destruct (queryUnverified _ _ _ _) as [answer w]. cbn [fst snd] in *.
  subst answer. cbn [rethrow]. rewrite Hdecode. cbn [rethrow fst].
  now rewrite Hcoin.
Qed.

(** The tables are injective up to the arguments: two calls share a
    path exactly when they are calls of one method. *)
Lemma pathOf_methodName q q' :
  pathOf q = pathOf q' <-> methodName q = methodName q'.
Proof.
  destruct q, q'; cbn [pathOf methodName]; split; intros H;
    first [reflexivity | discriminate H].
Qed.

Lemma methodName_messageType q q' :
  methodName q = methodName q' <->
  messageType (requestOf ext q) = messageType (requestOf ext q').
Proof.
  destruct q, q'; cbn [methodName requestOf messageType]; split; intros H;
    first [reflexivity | discriminate H].
Qed.

Lemma methodName_responseTypeOf q q' :
  methodName q = methodName q' <-> responseTypeOf q = responseTypeOf q'.
Proof.
  destruct q, q'; cbn [methodName responseTypeOf]; split; intros H;
    first [reflexivity | discriminate H].
Qed.

(** The codec objects of a method come from one module; its path is
    the service of that module followed by a procedure name, and the
    response type is the one named after that procedure. *)
Lemma path_names_response q :
  requestModule (messageType (requestOf ext q))
    = responseModule (responseTypeOf q)
  /\ pathOf q
     = (servicePath (responseModule (responseTypeOf q))
        ++ rpcName (pathOf q))%string
  /\ responseName (responseTypeOf q)
     = ("Query" ++ rpcName (pathOf q) ++ "Response")%string.
Proof. destruct q; repeat split. Qed.

(** C5: every query method sends to one fixed path, the request it
    sends is the encoding under the request type of that path, and the
    answer is decoded under the response type of that path; path,
    request type and response type determine one another across the
    methods; request and response type come from the module whose
    service the path names, and the response type is the one named
    after the procedure of the path; the four paths named are the
    literals of the code. *)
Theorem query_bound_to_path q s :
  calls (snd (invokeQuery ext q s))
    = calls s ++ [QueryUnverified (pathOf q) (encode ext (requestOf ext q))]
  /\ (forall data,
        fst (queryUnverified (stargateQueryClient (this s)) (pathOf q)
               (encode ext (requestOf ext q)) (node s)) = inr data ->
        fst (invokeQuery ext q s)
        = match decode ext (responseTypeOf q) data with
          | inl e => inl (Raised e)
          | inr response => deliver ext q response
          end)
  /\ (forall q',
        (pathOf q = pathOf q' <->
         messageType (requestOf ext q) = messageType (requestOf ext q'))
        /\ (pathOf q = pathOf q' <-> responseTypeOf q = responseTypeOf q')
        /\ (pathOf q = pathOf q' <-> methodName q = methodName q'))
  /\ (requestModule (messageType (requestOf ext q))
        = responseModule (responseTypeOf q)
      /\ pathOf q
         = (servicePath (responseModule (responseTypeOf q))
            ++ rpcName (pathOf q))%string
      /\ responseName (responseTypeOf q)
         = ("Query" ++ rpcName (pathOf q) ++ "Response")%string)
  /\ (forall address,
        pathOf (GetAccountBalances address)
        = "/cosmos.bank.v1beta1.Query/AllBalances")
  /\ (forall pairId,
        pathOf (GetClobPair pairId) = "/dydxprotocol.clob.Query/ClobPair")
  /\ (forall marketId,
        pathOf (GetPrice marketId) = "/dydxprotocol.prices.Query/MarketPrice")
  /\ (forall status,
        pathOf (GetAllValidators status)
        = "/cosmos.staking.v1beta1.Query/Validators").
Proof.
  split; [|split; [|split; [|split]]].
  - rewrite invokeQuery_pipeline. reflexivity.
  - intros data Hsend. rewrite invokeQuery_pipeline. unfold pipeline.
    cbn [fst]. now rewrite Hsend.
  - intros q'. rewrite <- methodName_messageType, <- methodName_responseTypeOf.
    pose proof (pathOf_methodName q q'). tauto.
  - apply path_names_response.
  - repeat split.
Qed.

(** C6: every method makes exactly one remote call, the one of its row
    ([queryUnverified] with the path and the encoded request, or
    [getBlock]), leaves the node as that call leaves it, and when the
    call is rejected the method is rejected with the very same error. *)
Theorem one_call_errors_pass_through m s :
  calls (snd (invoke ext m s)) = calls s ++ [remoteCallOf ext m]
  /\ node (snd (invoke ext m s)) = snd (answerTo (remoteCallOf ext m) s)
  /\ (forall q, m = Send q ->
        remoteCallOf ext m
        = QueryUnverified (pathOf q) (encode ext (requestOf ext q)))
  /\ (forall e,
        failure (fst (answerTo (remoteCallOf ext m) s)) = Some e ->
        fst (invoke ext m s) = inl (Raised e)).
Proof.
  split; [apply invoke_calls|]. split; [apply invoke_node|].
  split; [intros q ->; reflexivity|].
  intros e. destruct m as [| |q]; cbn [invoke remoteCallOf answerTo fst].
  - unfold latestBlock, tendermintClient_getBlock. cbn [fst failure].
    destruct (fst (getBlock _ _)); cbn; congruence.
  - rewrite latestBlockHeight_run.
    unfold latestBlock, tendermintClient_getBlock. cbn [fst failure].
    destruct (fst (getBlock _ _)); cbn; congruence.
  - rewrite invokeQuery_pipeline. unfold pipeline. cbn [fst failure].
    destruct (fst (queryUnverified _ _ _ _)); cbn; congruence.
Qed.

(** C8: a call leaves the two fields of the gateway as they were, and
    its outcome is a function of its arguments and of what the transport
    answered: in any two states in which the transport gives the same
    answer to the call's request, the call ends the same way; so does
    the same call made again, when the transport answers again as it
    did. *)
Theorem gateway_unchanged_result_by_answer m s :
  this (snd (invoke ext m s)) = this s
  /\ tendermintClient (this (snd (invoke ext m s))) = tendermintClient (this s)
  /\ stargateQueryClient (this (snd (invoke ext m s)))
     = stargateQueryClient (this s)
  /\ (forall s',
        fst (answerTo (remoteCallOf ext m) s')
        = fst (answerTo (remoteCallOf ext m) s) ->
        fst (invoke ext m s') = fst (invoke ext m s))
  /\ (fst (answerTo (remoteCallOf ext m) (snd (invoke ext m s)))
      = fst (answerTo (remoteCallOf ext m) s) ->
      fst (invoke ext m (snd (invoke ext m s))) = fst (invoke ext m s)).
Proof.
  assert (D : forall s',
             fst (answerTo (remoteCallOf ext m) s')
             = fst (answerTo (remoteCallOf ext m) s) ->
             fst (invoke ext m s') = fst (invoke ext m s)).
  { intros s'.
    destruct m as [| |q]; cbn [invoke remoteCallOf answerTo fst];
      intros H; injection H as H.
    - unfold latestBlock, tendermintClient_getBlock. cbn [fst].
      now rewrite H.
    - rewrite !latestBlockHeight_run.
      unfold latestBlock, tendermintClient_getBlock. cbn [fst].
      now rewrite H.
    - rewrite !invokeQuery_pipeline. unfold pipeline. cbn [fst].
      now rewrite H. }
  rewrite invoke_this. repeat split; [exact D|apply D].
Qed.

(** C2, for the methods that name [PAGE_REQUEST]: each of
    [getAllClobPairs], [getAllPrices], [getAllPerpetuals],
    [getDelegatorDelegations], [getDelegatorUnbondingDelegations] and
    [getAllValidators] sends, byte for byte, the encoding of the request
    whose pagination is [PAGE_REQUEST]. *)
Theorem paginated_queries_send_PAGE_REQUEST s :
  calls (snd (getAllClobPairs ext s))
    = calls s ++
      [QueryUnverified "/dydxprotocol.clob.Query/ClobPairAll"
         (encode ext (QueryAllClobPairRequest (Some (PAGE_REQUEST ext))))]
  /\ calls (snd (getAllPrices ext s))
    = calls s ++
      [QueryUnverified "/dydxprotocol.prices.Query/AllMarketPrices"
         (encode ext (QueryAllMarketPricesRequest (Some (PAGE_REQUEST ext))))]
  /\ calls (snd (getAllPerpetuals ext s))
    = calls s ++
      [QueryUnverified "/dydxprotocol.perpetuals.Query/AllPerpetuals"
         (encode ext (QueryAllPerpetualsRequest (Some (PAGE_REQUEST ext))))]
  /\ (forall delegatorAddr,
        calls (snd (getDelegatorDelegations ext delegatorAddr s))
        = calls s ++
          [QueryUnverified "/cosmos.staking.v1beta1.Query/DelegatorDelegations"
             (encode ext
                (QueryDelegatorDelegationsRequest delegatorAddr
                   (Some (PAGE_REQUEST ext))))])
  /\ (forall delegatorAddr,
        calls (snd (getDelegatorUnbondingDelegations ext delegatorAddr s))
        = calls s ++
          [QueryUnverified
             "/cosmos.staking.v1beta1.Query/DelegatorUnbondingDelegations"
             (encode ext
                (QueryDelegatorUnbondingDelegationsRequest delegatorAddr
                   (Some (PAGE_REQUEST ext))))])
  /\ (forall status,
        calls (snd (getAllValidators ext status s))
        = calls s ++
          [QueryUnverified "/cosmos.staking.v1beta1.Query/Validators"
             (encode ext
                (QueryValidatorsRequest (or_default "" status)
                   (Some (PAGE_REQUEST ext))))]).
Proof.
  repeat split; intros.
  - exact (invoke_calls (Send GetAllClobPairs) s).
  - exact (invoke_calls (Send GetAllPrices) s).
  - exact (invoke_calls (Send GetAllPerpetuals) s).
  - exact (invoke_calls (Send (GetDelegatorDelegations delegatorAddr)) s).
  - exact (invoke_calls
             (Send (GetDelegatorUnbondingDelegations delegatorAddr)) s).
  - exact (invoke_calls (Send (GetAllValidators status)) s).
Qed.

End GatewayFacts.

(** ** The codecs at work in the gateway *)

(** C7, for numeric arguments that are unsigned 32-bit integers: under
    the protobuf codecs, the bytes a query method sends decode, with
    the request type of its path, to the request the method built,
    field for field. *)
Theorem request_round_trip {World : Type} (pageRequest : PageRequest)
  (q : Query) (s : Sys World) :
  uint32Arguments q ->
  exists data,
    calls (snd (invokeQuery (Protobuf.imports pageRequest) q s))
      = calls s ++ [QueryUnverified (pathOf q) data]
    /\ data = Protobuf.encodeRequest (requestOf (Protobuf.imports pageRequest) q)
    /\ Protobuf.decodeRequest
         (messageType (requestOf (Protobuf.imports pageRequest) q)) data
       = Some (requestOf (Protobuf.imports pageRequest) q).
Proof.
  intros Hq. eexists. split; [|split; [reflexivity|]].
  - rewrite invokeQuery_pipeline. reflexivity.
  - apply ProtobufFacts.decodeRequest_encodeRequest.
    destruct q; exact Hq || exact I.
Qed.

(** ** Concrete runs *)

(** A tip of height 12345 makes [latestBlockHeight] resolve to 12345,
    after one call of [getBlock]. *)
Example latestBlockHeight_12345 :
  fst (latestBlockHeight Fixture.empty) = inr 12345%Z
  /\ calls (snd (latestBlockHeight Fixture.empty)) = [GetBlock].
Proof. split; reflexivity. Qed.

(** The answers of the fixture nodes, as the methods receive them. *)
Lemma fixture_answers :
  (forall a address,
     fst (queryUnverified (stargateQueryClient (this (Fixture.withAccount a)))
            "/cosmos.auth.v1beta1.Query/Account"
            (encode Fixture.ext (QueryAccountRequest address))
            (node (Fixture.withAccount a)))
     = inr (Fixture.accountOf a))
  /\ (forall c address denom,
        fst (queryUnverified
               (stargateQueryClient (this (Fixture.withBalance c)))
               "/cosmos.bank.v1beta1.Query/Balance"
               (encode Fixture.ext (QueryBalanceRequest address denom))
               (node (Fixture.withBalance c)))
        = inr (Fixture.balanceOf c))
  /\ (forall u address,
        fst (queryUnverified
               (stargateQueryClient (this (Fixture.withStats u)))
               "/dydxprotocol.stats.Query/UserStats"
               (encode Fixture.ext (QueryUserStatsRequest address))
               (node (Fixture.withStats u)))
        = inr (Fixture.statsOf u)).
Proof. repeat split. Qed.

(** C1 at work: a node that answers with an empty response, and one that
    answers with a base account. *)
Lemma getAccount_unexpected_or_account_run :
  (decode Fixture.ext AuthModule_QueryAccountResponse (Fixture.accountOf None)
     = inr {| account := None |}
   /\ fst (getAccount Fixture.ext "dydx1abc" (Fixture.withAccount None))
      = inl UnexpectedClientError)
  /\ (decode Fixture.ext AuthModule_QueryAccountResponse
        (Fixture.accountOf (Some Fixture.baseAccount))
      = inr {| account := Some Fixture.baseAccount |}
      /\ fst (getAccount Fixture.ext "dydx1abc"
                (Fixture.withAccount (Some Fixture.baseAccount)))
         = inr {| account_address := "dydx1abc"; pubkey := None;
                  accountNumber := 7; sequence := 42 |}
      /\ fst (getAccount Fixture.ext "dydx1abc"
                (Fixture.withAccount (Some Fixture.baseAccount)))
         <> inl UnexpectedClientError).
Proof.
  split; (split; [reflexivity|]).
  - exact (getAccount_unexpected_or_account Fixture.ext "dydx1abc"
             (Fixture.withAccount None) (Fixture.accountOf None)
             {| account := None |} eq_refl eq_refl).
  - exact (getAccount_unexpected_or_account Fixture.ext "dydx1abc"
             (Fixture.withAccount (Some Fixture.baseAccount))
             (Fixture.accountOf (Some Fixture.baseAccount))
             {| account := Some Fixture.baseAccount |} eq_refl eq_refl).
Defined.

(** C3 at work: a node that knows no balance for the denom, and one that
    knows one. *)
Lemma getAccountBalance_absent_or_coin_run :
  (decode Fixture.ext BankModule_QueryBalanceResponse (Fixture.balanceOf None)
     = inr {| balance := None |}
   /\ fst (getAccountBalance Fixture.ext "dydx1abc" "adv4tnt"
             (Fixture.withBalance None)) = inr None)
  /\ (decode Fixture.ext BankModule_QueryBalanceResponse
        (Fixture.balanceOf (Some Fixture.coin))
      = inr {| balance := Some Fixture.coin |}
      /\ fst (getAccountBalance Fixture.ext "dydx1abc" "adv4tnt"
                (Fixture.withBalance (Some Fixture.coin)))
         = inr (Some {| denom := "adv4tnt"; amount := "1000" |})).
Proof.
  split; (split; [reflexivity|]).
  - exact (getAccountBalance_absent_or_coin Fixture.ext "dydx1abc" "adv4tnt"
             (Fixture.withBalance None) (Fixture.balanceOf None)
             {| balance := None |} eq_refl eq_refl).
  - exact (getAccountBalance_absent_or_coin Fixture.ext "dydx1abc" "adv4tnt"
             (Fixture.withBalance (Some Fixture.coin))
             (Fixture.balanceOf (Some Fixture.coin))
             {| balance := Some Fixture.coin |} eq_refl eq_refl).
Defined.

(** C9 at work: a node with no stats for the user, and one with some. *)
Lemma getUserStats_absent_or_stats_run :
  (decode Fixture.ext StatsModule_QueryUserStatsResponse
     (Fixture.statsOf None) = inr {| stats := None |}
   /\ fst (getUserStats Fixture.ext "dydx1abc" (Fixture.withStats None))
      = inr None)
  /\ (decode Fixture.ext StatsModule_QueryUserStatsResponse
        (Fixture.statsOf (Some Fixture.volume))
      = inr {| stats := Some Fixture.volume |}
      /\ fst (getUserStats Fixture.ext "dydx1abc"
                (Fixture.withStats (Some Fixture.volume)))
         = inr (Some {| takerNotional := 250000;
                        makerNotional := 1000000 |})).
Proof.
  split; (split; [reflexivity|]).
  - exact (getUserStats_absent_or_stats Fixture.ext "dydx1abc"
             (Fixture.withStats None) (Fixture.statsOf None)
             {| stats := None |} eq_refl eq_refl).
  - exact (getUserStats_absent_or_stats Fixture.ext "dydx1abc"
             (Fixture.withStats (Some Fixture.volume))
             (Fixture.statsOf (Some Fixture.volume))
             {| stats := Some Fixture.volume |} eq_refl eq_refl).
Defined.

(** C10 at work: the node answers a request for ["usdc"] with a coin of
    another denom, and the caller gets that coin. *)
Lemma getAccountBalance_other_denom_run :
  denom Fixture.coin <> "usdc"
  /\ decode Fixture.ext BankModule_QueryBalanceResponse
       (Fixture.balanceOf (Some Fixture.coin))
     = inr {| balance := Some Fixture.coin |}
  /\ fst (getAccountBalance Fixture.ext "dydx1abc" "usdc"
            (Fixture.withBalance (Some Fixture.coin)))
     = inr (Some Fixture.coin).
Proof.
  split; [discriminate|]. split; [reflexivity|].
  exact (getAccountBalance_returns_decoded_coin Fixture.ext "dydx1abc" "usdc"
           (Fixture.withBalance (Some Fixture.coin))
           (Fixture.balanceOf (Some Fixture.coin))
           {| balance := Some Fixture.coin |} Fixture.coin
           eq_refl eq_refl eq_refl).
Defined.

(** C7 at work: the request of [getSubaccount] for subaccount 5. *)
Lemma request_round_trip_run :
  uint32Arguments (GetSubaccount "dydx1abc" 5)
  /\ exists data,
       calls (snd (getSubaccount Fixture.ext "dydx1abc" 5 Fixture.empty))
         = [QueryUnverified "/dydxprotocol.subaccounts.Query/Subaccount" data]
       /\ data
          = Protobuf.encodeRequest (QueryGetSubaccountRequest "dydx1abc" 5)
       /\ Protobuf.decodeRequest SubaccountsModule_QueryGetSubaccountRequest
            data
          = Some (QueryGetSubaccountRequest "dydx1abc" 5).
Proof.
  assert (H : uint32Arguments (GetSubaccount "dydx1abc" 5))
    by (cbn; unfold uint32; lia).
  split; [exact H|].
  exact (request_round_trip Protobuf.pageRequestAll
           (GetSubaccount "dydx1abc" 5) Fixture.empty H).
Defined.

(** C2 fails for the two other methods of its list: [getSubaccounts]
    and [getDelayedCompleteBridgeMessages] send a request with no field
    at all, which is not the encoding of a request that holds
    [PAGE_REQUEST]. *)
Lemma getSubaccounts_sends_no_pagination :
  calls (snd (getSubaccounts Fixture.ext Fixture.empty))
    = [QueryUnverified "/dydxprotocol.subaccounts.Query/SubaccountAll" []]
  /\ encode Fixture.ext
       (QueryAllSubaccountRequest (Some (PAGE_REQUEST Fixture.ext))) <> []
  /\ Protobuf.decodeRequest SubaccountsModule_QueryAllSubaccountRequest []
     = Some (QueryAllSubaccountRequest None)
  /\ calls (snd (getDelayedCompleteBridgeMessages Fixture.ext None
                   Fixture.empty))
     = [QueryUnverified
          "/dydxprotocol.bridge.Query/DelayedCompleteBridgeMessages" []].
Proof.
  repeat split. discriminate.
Qed.

(** ** Further properties of the gateway *)

Section Coverage.

Context {World : Type} (ext : Imports).
Implicit Types (s : Sys World) (q : Query) (m : Method).

(** The answer of the transport to the request of a query method. *)
Local Abbreviation sent q s :=
  (fst (queryUnverified (stargateQueryClient (this s)) (pathOf q)
          (encode ext (requestOf ext q)) (node s))).

(** X1: when the transport answers and the decoder throws on the
    answer, the method is rejected with the decoder's own error, after
    its one remote call. *)
Theorem decode_error_passes_through q s (data : bytes) (e : JsError) :
  sent q s = inr data ->
  decode ext (responseTypeOf q) data = inl e ->
  fst (invokeQuery ext q s) = inl (Raised e)
  /\ calls (snd (invokeQuery ext q s))
     = calls s ++ [QueryUnverified (pathOf q) (encode ext (requestOf ext q))].
Proof.
  intros Hsend Hdecode. rewrite invokeQuery_pipeline. unfold pipeline.
  cbn [fst snd calls]. now rewrite Hsend, Hdecode.
Qed.

Lemma rethrow_not_unexpected {A} (r : JsError + A) :
  rethrow r <> inl UnexpectedClientError.
Proof. destruct r; discriminate. Qed.

(** X2: [UnexpectedClientError] comes from [getAccount] alone, and
    exactly when the transport answered, the answer decoded, and the
    decoded response has no account. *)
Theorem unexpected_only_from_getAccount s :
  (forall address,
     fst (getAccount ext address s) = inl UnexpectedClientError <->
     exists data response,
       sent (GetAccount address) s = inr data
       /\ decode ext AuthModule_QueryAccountResponse data = inr response
       /\ account response = None)
  /\ (forall q,
        fst (invokeQuery ext q s) = inl UnexpectedClientError ->
        exists address, q = GetAccount address)
  /\ fst (latestBlock s) <> inl UnexpectedClientError
  /\ fst (latestBlockHeight s) <> inl UnexpectedClientError.
Proof.
  split; [|split; [|split]].
  - intros address.
    change (getAccount ext address s)
      with (invokeQuery ext (GetAccount address) s).
    rewrite invokeQuery_pipeline. unfold pipeline.
    cbn [pathOf requestOf responseTypeOf deliver fst].
    destruct (fst (queryUnverified _ _ _ _)) as [e|data]; split.
    + discriminate.
    + intros (d & r & H & _). discriminate H.
    + destruct (decode ext AuthModule_QueryAccountResponse data)
        as [e|response] eqn:D; [discriminate|].
      destruct (account response) as [rawAccount|] eqn:A.
      * intros H. now apply rethrow_not_unexpected in H.
      * intros _. exists data, response. auto.
    + intros (d & r & H & D & A). injection H as <-.
      rewrite D. cbn. now rewrite A.
  - intros q. rewrite invokeQuery_pipeline. unfold pipeline. cbn [fst].
    destruct (fst (queryUnverified _ _ _ _)) as [e|data]; [discriminate|].
    destruct (decode ext (responseTypeOf q) data) as [e|response];
      [discriminate|].
    destruct q; cbn [deliver]; try discriminate. eauto.
  - unfold latestBlock, tendermintClient_getBlock. cbn [fst].
    apply rethrow_not_unexpected.
  - rewrite latestBlockHeight_run.
    unfold latestBlock, tendermintClient_getBlock. cbn [fst].
    destruct (fst (getBlock _ _)); discriminate.
Qed.

(** X3: apart from [getAccount], a query method resolves whenever the
    transport answers and the answer decodes: the gateway checks
    neither its arguments nor the decoded response. *)
Theorem query_resolves_without_validation q s (data : bytes)
  (response : Resp (Opaque ext) (responseTypeOf q)) :
  (forall address, q <> GetAccount address) ->
  sent q s = inr data ->
  decode ext (responseTypeOf q) data = inr response ->
  exists v,
    fst (invokeQuery ext q s) = inr v /\ deliver ext q response = inr v.
Proof.
  intros Hq Hsend Hdecode. rewrite invokeQuery_pipeline. unfold pipeline.
  cbn [fst]. rewrite Hsend, Hdecode.
  destruct q; cbn [deliver]; eauto.
  now destruct (Hq address).
Qed.

(** X4: [getAccountBalances] resolves to the balances of the decoded
    response, as they are: the empty list too. *)
Theorem getAccountBalances_returns_balances (address : string) s
  (data : bytes) (response : QueryAllBalancesResponse) :
  sent (GetAccountBalances address) s = inr data ->
  decode ext BankModule_QueryAllBalancesResponse data = inr response ->
  fst (getAccountBalances ext address s) = inr (balances response).
Proof.
  intros Hsend Hdecode.
  change (getAccountBalances ext address s)
    with (invokeQuery ext (GetAccountBalances address) s).
  rewrite invokeQuery_pipeline. unfold pipeline.
  cbn [pathOf requestOf responseTypeOf deliver fst] in *.
  now rewrite Hsend, Hdecode.
Qed.

(** X5: leaving out the argument of [getDelayedCompleteBridgeMessages]
    or of [getAllValidators] is passing the empty string; an argument
    that is given goes into the request as it is, the empty string
    included. *)
Theorem omitted_filter_is_empty_string s :
  getDelayedCompleteBridgeMessages ext None s
    = getDelayedCompleteBridgeMessages ext (Some "") s
  /\ getAllValidators ext None s = getAllValidators ext (Some "") s
  /\ (forall address,
        calls (snd (getDelayedCompleteBridgeMessages ext (Some address) s))
        = calls s ++
          [QueryUnverified
             "/dydxprotocol.bridge.Query/DelayedCompleteBridgeMessages"
             (encode ext (QueryDelayedCompleteBridgeMessagesRequest address))])
  /\ (forall status,
        calls (snd (getAllValidators ext (Some status) s))
        = calls s ++
          [QueryUnverified "/cosmos.staking.v1beta1.Query/Validators"
             (encode ext
                (QueryValidatorsRequest status (Some (PAGE_REQUEST ext))))]).
Proof.
  repeat split; intros.
  - exact (invoke_calls ext
             (Send (GetDelayedCompleteBridgeMessages (Some address))) s).
  - exact (invoke_calls ext (Send (GetAllValidators (Some status))) s).
Qed.

(** X6: a query method never uses the Tendermint client, and the two
    chain-tip methods never use the query client: with the other client
    replaced, a call has the same outcome, leaves the same node and logs
    the same remote call. *)
Theorem other_client_unused s :
  (forall q (client : TendermintClient World),
     fst (invokeQuery ext q (withTendermintClient client s))
       = fst (invokeQuery ext q s)
     /\ node (snd (invokeQuery ext q (withTendermintClient client s)))
        = node (snd (invokeQuery ext q s))
     /\ calls (snd (invokeQuery ext q (withTendermintClient client s)))
        = calls (snd (invokeQuery ext q s)))
  /\ (forall (client : StargateQueryClient World),
        (fst (latestBlock (withStargateQueryClient client s))
           = fst (latestBlock s)
         /\ node (snd (latestBlock (withStargateQueryClient client s)))
            = node (snd (latestBlock s))
         /\ calls (snd (latestBlock (withStargateQueryClient client s)))
            = calls (snd (latestBlock s)))
        /\ (fst (latestBlockHeight (withStargateQueryClient client s))
              = fst (latestBlockHeight s)
            /\ node (snd (latestBlockHeight
                            (withStargateQueryClient client s)))
               = node (snd (latestBlockHeight s))
            /\ calls (snd (latestBlockHeight
                             (withStargateQueryClient client s)))
               = calls (snd (latestBlockHeight s)))).
Proof.
  split.
  - intros q client. rewrite !invokeQuery_pipeline. repeat split.
  - intros client. rewrite !latestBlockHeight_run. repeat split.
Qed.

(** X7: a caller that awaits one method and then calls another makes
    the two remote calls in that order, the second on the node the first
    left; when the first is rejected, the caller is rejected with its
    error and the second call is never made.  Nothing is kept from the
    first call: the second is made even when it is the same call. *)
Theorem await_then_invoke m1 m2 s :
  match fst (invoke ext m1 s) with
  | inl e =>
      thenInvoke ext m1 m2 s = (inl e, snd (invoke ext m1 s))
      /\ calls (snd (thenInvoke ext m1 m2 s))
         = calls s ++ [remoteCallOf ext m1]
  | inr _ =>
      thenInvoke ext m1 m2 s = invoke ext m2 (snd (invoke ext m1 s))
      /\ calls (snd (thenInvoke ext m1 m2 s))
         = calls s ++ [remoteCallOf ext m1; remoteCallOf ext m2]
      /\ node (snd (thenInvoke ext m1 m2 s))
         = snd (answerTo (remoteCallOf ext m2) (snd (invoke ext m1 s)))
  end.
Proof.
  unfold thenInvoke, await.
  pose proof (invoke_calls ext m1 s) as C1.
  destruct (invoke ext m1 s) as [[e|v] s1]; cbn [fst snd] in *.
  - split; [reflexivity|exact C1].
  - split; [reflexivity|]. split.
    + rewrite invoke_calls, C1, <- app_assoc. reflexivity.
    + apply invoke_node.
Qed.

(** X8: an account [getAccount] resolves to is one that
    [accountFromAny] made of the account of the decoded response. *)
Theorem getAccount_resolves_from_response (address : string) s
  (result : Account) :
  fst (getAccount ext address s) = inr result ->
  exists data response rawAccount,
    sent (GetAccount address) s = inr data
    /\ decode ext AuthModule_QueryAccountResponse data = inr response
    /\ account response = Some rawAccount
    /\ accountFromAny ext rawAccount = inr result.
Proof.
  change (getAccount ext address s)
    with (invokeQuery ext (GetAccount address) s).
  rewrite invokeQuery_pipeline. unfold pipeline.
  cbn [pathOf requestOf responseTypeOf deliver fst].
  destruct (fst (queryUnverified _ _ _ _)) as [e|data]; [discriminate|].
  destruct (decode ext AuthModule_QueryAccountResponse data)
    as [e|response] eqn:D; [discriminate|].
  destruct (account response) as [rawAccount|] eqn:A; [|discriminate].
  destruct (accountFromAny ext rawAccount) as [e|a] eqn:F; [discriminate|].
  intros H. injection H as <-. exists data, response, rawAccount. auto.
Qed.

End Coverage.

(** X1 at work: the node answers [getClobPair] with a truncated
    message. *)
Lemma decode_error_passes_through_run :
  decode Fixture.ext ClobModule_QueryClobPairResponse Fixture2.truncated
    = inl {| name := "RangeError"; message := "index out of range" |}
  /\ fst (getClobPair Fixture.ext 7
            (Fixture2.withClobPair Fixture2.truncated))
     = inl (Raised {| name := "RangeError";
                      message := "index out of range" |})
  /\ calls (snd (getClobPair Fixture.ext 7
                   (Fixture2.withClobPair Fixture2.truncated)))
     = [QueryUnverified "/dydxprotocol.clob.Query/ClobPair"
          (encode Fixture.ext (QueryGetClobPairRequest 7))].
Proof.
  split; [reflexivity|].
  exact (decode_error_passes_through Fixture.ext (GetClobPair 7)
           (Fixture2.withClobPair Fixture2.truncated) Fixture2.truncated
           {| name := "RangeError"; message := "index out of range" |}
           eq_refl eq_refl).
Defined.

(** X3 at work: [getClobPair] for a pair the node knows. *)
Lemma query_resolves_without_validation_run :
  Fixture2.clobPair7 = ["010"; "002"; "008"; "007"]%byte
  /\ decode Fixture.ext ClobModule_QueryClobPairResponse Fixture2.clobPair7
     = inr [(1, Protobuf.Embedded [(1, VARINT 7)])]
  /\ exists v,
       fst (getClobPair Fixture.ext 7
              (Fixture2.withClobPair Fixture2.clobPair7)) = inr v
       /\ inr [(1, Protobuf.Embedded [(1, VARINT 7)])] = inr v
          :> Result (Protobuf.Fields ClobModule_QueryClobPairResponse).
Proof.
  split; [reflexivity|]. split; [reflexivity|].
  refine (query_resolves_without_validation Fixture.ext (GetClobPair 7)
            (Fixture2.withClobPair Fixture2.clobPair7) Fixture2.clobPair7
            [(1, Protobuf.Embedded [(1, VARINT 7)])] _ eq_refl eq_refl).
  intros address. discriminate.
Defined.

(** The decoder of a response goes by its message type: a number in
    the place of the pair is refused, and the method is rejected. *)
Example getClobPair_refuses_a_number :
  Fixture2.notAClobPair = ["008"; "007"]%byte
  /\ decode Fixture.ext ClobModule_QueryClobPairResponse
       Fixture2.notAClobPair
     = inl {| name := "RangeError"; message := "index out of range" |}
  /\ fst (getClobPair Fixture.ext 7
            (Fixture2.withClobPair Fixture2.notAClobPair))
     = inl (Raised {| name := "RangeError";
                      message := "index out of range" |}).
Proof. repeat split. Qed.

(** X4 at work: an account with two balances, and one with none. *)
Lemma getAccountBalances_returns_balances_run :
  (decode Fixture.ext BankModule_QueryAllBalancesResponse
     (Fixture2.balancesOf [Fixture.coin; Fixture2.otherCoin])
   = inr {| balances := [Fixture.coin; Fixture2.otherCoin] |}
   /\ fst (getAccountBalances Fixture.ext "dydx1abc"
             (Fixture2.withBalances [Fixture.coin; Fixture2.otherCoin]))
      = inr [Fixture.coin; Fixture2.otherCoin])
  /\ (decode Fixture.ext BankModule_QueryAllBalancesResponse
        (Fixture2.balancesOf []) = inr {| balances := [] |}
      /\ fst (getAccountBalances Fixture.ext "dydx1abc"
                (Fixture2.withBalances [])) = inr []).
Proof.
  split; (split; [reflexivity|]).
  - exact (getAccountBalances_returns_balances Fixture.ext "dydx1abc"
             (Fixture2.withBalances [Fixture.coin; Fixture2.otherCoin])
             (Fixture2.balancesOf [Fixture.coin; Fixture2.otherCoin])
             {| balances := [Fixture.coin; Fixture2.otherCoin] |}
             eq_refl eq_refl).
  - exact (getAccountBalances_returns_balances Fixture.ext "dydx1abc"
             (Fixture2.withBalances []) (Fixture2.balancesOf [])
             {| balances := [] |} eq_refl eq_refl).
Defined.

(** X8 at work: the account the node of the base account gives. *)
Lemma getAccount_resolves_from_response_run :
  fst (getAccount Fixture.ext "dydx1abc"
         (Fixture.withAccount (Some Fixture.baseAccount)))
    = inr {| account_address := "dydx1abc"; pubkey := None;
             accountNumber := 7; sequence := 42 |}
  /\ exists data response rawAccount,
       fst (queryUnverified
              (stargateQueryClient
                 (this (Fixture.withAccount (Some Fixture.baseAccount))))
              "/cosmos.auth.v1beta1.Query/Account"
              (encode Fixture.ext (QueryAccountRequest "dydx1abc"))
              (node (Fixture.withAccount (Some Fixture.baseAccount))))
         = inr data
       /\ decode Fixture.ext AuthModule_QueryAccountResponse data
          = inr response
       /\ account response = Some rawAccount
       /\ accountFromAny Fixture.ext rawAccount
          = inr {| account_address := "dydx1abc"; pubkey := None;
                   accountNumber := 7; sequence := 42 |}.
Proof.
  split; [reflexivity|].
  exact (getAccount_resolves_from_response Fixture.ext "dydx1abc"
           (Fixture.withAccount (Some Fixture.baseAccount))
           {| account_address := "dydx1abc"; pubkey := None;
              accountNumber := 7; sequence := 42 |} eq_refl).
Defined.

(** C7 fails for a number beyond 32 bits: the writer keeps its low 32
    bits, so the request [getClobPair] sends for the pair 4294967301
    decodes to a request for the pair 5. *)
Lemma getClobPair_id_beyond_uint32 :
  calls (snd (getClobPair Fixture.ext 4294967301 Fixture.empty))
    = [QueryUnverified "/dydxprotocol.clob.Query/ClobPair"
         (Protobuf.encodeRequest (QueryGetClobPairRequest 4294967301))]
  /\ Protobuf.decodeRequest ClobModule_QueryGetClobPairRequest
       (Protobuf.encodeRequest (QueryGetClobPairRequest 4294967301))
     = Some (QueryGetClobPairRequest 5)
  /\ QueryGetClobPairRequest 5 <> QueryGetClobPairRequest 4294967301.
Proof. repeat split. discriminate. Qed.
